(** * TMWheels.ino: decoding Thrustmaster wheel rims on an ESP32

    A shallow embedding of the sketch [TMWheels/TMWheels.ino]: the global
    variables become one record [state], every statement of [loop] becomes a
    state transformer that also records the calls it makes ([stmt]), and the
    bytes clocked in over SPI are an explicit input, one [frame] per burst of
    five transfers.  The helper functions [setButton] and [convertHat] are
    embedded as the list of BleGamepad operations they perform. *)

From Stdlib Require Import Ascii ZArith List Bool Lia.
Import ListNotations.
Local Open Scope Z_scope.

(** ** Data *)

(** [byte currBytes[5]], [byte prevBytes[5]]: five bytes. *)
Record frame : Set := Frame {
  byte0 : Z; byte1 : Z; byte2 : Z; byte3 : Z; byte4 : Z
}.

(** [a[i]] for a five byte array. *)
Definition byte_at (f : frame) (i : nat) : Z :=
  match i with
  | 0%nat => byte0 f
  | 1%nat => byte1 f
  | 2%nat => byte2 f
  | 3%nat => byte3 f
  | 4%nat => byte4 f
  | _ => 0
  end.

(** [byte pos[] = {0x80, 0x40, 0x20, 0x10, 0x08, 0x04, 0x02, 0x01}]. *)
Definition pos : list Z := [0x80; 0x40; 0x20; 0x10; 0x08; 0x04; 0x02; 0x01].

Definition pos_at (b : nat) : Z := nth b pos 0.

(** The working array as it is initialised, and the three tables. *)
Definition bit2btn0 : list Z :=
  [-1;-1;-1;-1;-1;-1;-1;-1;  -1;-1;-1;-1;-1;-1;-1;-1;
   -1;-1;-1;-1;-1;-1;-1;-1;  -1;-1;-1;-1;-1;-1;-1;-1].

Definition F599Btn : list Z :=
  [-1;-1;-1;0;1;2;3;4;  5;6;7;8;9;-1;-1;12;
   33;32;34;31;-1;-1;-1;-1;  -1;-1;-1;-1;-1;-1;-1;-1].

Definition R383Btn : list Z :=
  [-1;-1;-1;-1;-1;-1;-1;5;  1;4;8;-1;6;12;7;-1;
   2;9;34;31;32;33;3;0;  -1;-1;-1;-1;-1;-1;-1;-1].

Definition F1Btn : list Z :=
  [4;-1;-1;-1;0;1;2;3;  12;5;6;7;8;9;10;11;
   17;33;32;34;31;18;19;20;  -1;15;13;14;16;-1;-1;-1].

(** Modelled from the spec: [HAT_CENTERED] is a macro of the BleGamepad
    library, whose header is not part of the sketch.  The spec only says that
    the centered state is a fifth value, distinct from the direction codes
    1, 3, 5 and 7; the library's value, 0, is taken here. *)
Definition HAT_CENTERED : Z := 0.

(** The global variables of the sketch. *)
Record state : Set := State {
  currBytes : frame;
  prevBytes : frame;
  wheelbyte : Z;
  fourthbyte : Z;
  fifthbyte : Z;
  wheelID : Z;
  btnState : bool;
  joyBtnState : bool;
  prevJoyBtnState : bool;
  buttonsreset : bool;
  wheelIdentified : bool;
  bit2btn : list Z
}.

Definition zero_frame : frame := Frame 0 0 0 0 0.

(** The state after [setup]: globals without an initialiser are zero. *)
Definition init : state :=
  State zero_frame zero_frame 0 0 0 0 false false false false false bit2btn0.

Definition set_currBytes (v : frame) (s : state) : state :=
  State v (prevBytes s) (wheelbyte s) (fourthbyte s) (fifthbyte s) (wheelID s)
        (btnState s) (joyBtnState s) (prevJoyBtnState s) (buttonsreset s)
        (wheelIdentified s) (bit2btn s).

Definition set_prevBytes (v : frame) (s : state) : state :=
  State (currBytes s) v (wheelbyte s) (fourthbyte s) (fifthbyte s) (wheelID s)
        (btnState s) (joyBtnState s) (prevJoyBtnState s) (buttonsreset s)
        (wheelIdentified s) (bit2btn s).

Definition set_wheelbyte (v : Z) (s : state) : state :=
  State (currBytes s) (prevBytes s) v (fourthbyte s) (fifthbyte s) (wheelID s)
        (btnState s) (joyBtnState s) (prevJoyBtnState s) (buttonsreset s)
        (wheelIdentified s) (bit2btn s).

Definition set_fourthbyte (v : Z) (s : state) : state :=
  State (currBytes s) (prevBytes s) (wheelbyte s) v (fifthbyte s) (wheelID s)
        (btnState s) (joyBtnState s) (prevJoyBtnState s) (buttonsreset s)
        (wheelIdentified s) (bit2btn s).

Definition set_fifthbyte (v : Z) (s : state) : state :=
  State (currBytes s) (prevBytes s) (wheelbyte s) (fourthbyte s) v (wheelID s)
        (btnState s) (joyBtnState s) (prevJoyBtnState s) (buttonsreset s)
        (wheelIdentified s) (bit2btn s).

Definition set_btnState (v : bool) (s : state) : state :=
  State (currBytes s) (prevBytes s) (wheelbyte s) (fourthbyte s) (fifthbyte s)
        (wheelID s) v (joyBtnState s) (prevJoyBtnState s) (buttonsreset s)
        (wheelIdentified s) (bit2btn s).

Definition set_joyBtnState (v : bool) (s : state) : state :=
  State (currBytes s) (prevBytes s) (wheelbyte s) (fourthbyte s) (fifthbyte s)
        (wheelID s) (btnState s) v (prevJoyBtnState s) (buttonsreset s)
        (wheelIdentified s) (bit2btn s).

Definition set_prevJoyBtnState (v : bool) (s : state) : state :=
  State (currBytes s) (prevBytes s) (wheelbyte s) (fourthbyte s) (fifthbyte s)
        (wheelID s) (btnState s) (joyBtnState s) v (buttonsreset s)
        (wheelIdentified s) (bit2btn s).

Definition set_buttonsreset (v : bool) (s : state) : state :=
  State (currBytes s) (prevBytes s) (wheelbyte s) (fourthbyte s) (fifthbyte s)
        (wheelID s) (btnState s) (joyBtnState s) (prevJoyBtnState s) v
        (wheelIdentified s) (bit2btn s).

Definition set_wheelIdentified (v : bool) (s : state) : state :=
  State (currBytes s) (prevBytes s) (wheelbyte s) (fourthbyte s) (fifthbyte s)
        (wheelID s) (btnState s) (joyBtnState s) (prevJoyBtnState s)
        (buttonsreset s) v (bit2btn s).

(** [wheelID = id; memcpy(bit2btn, table, sizeof(table)); wheelIdentified = true]:
    the three assignments every identification branch makes. *)
Definition identified_as (id : Z) (table : list Z) (s : state) : state :=
  State (currBytes s) (prevBytes s) (wheelbyte s) (fourthbyte s) (fifthbyte s)
        id (btnState s) (joyBtnState s) (prevJoyBtnState s) (buttonsreset s)
        true table.

(** ** Calls *)

(** What [loop] calls, in the order it calls it: the BleGamepad methods it
    uses directly, the two helpers of the sketch, and [delay]. *)
Inductive call : Set :=
| CsetHat1 (h : Z)
| CsetButton (button : Z) (buttonState : bool)
| CconvertHat (hat : Z)
| CsendReport
| Cdelay (ms : Z).

(** What reaches the BleGamepad object. *)
Inductive gamepad_op : Set :=
| setHat1 (h : Z)
| press (b : Z)
| release (b : Z)
| sendReport.

(** [void setButton(int button, bool buttonState)]. *)
Definition setButton (button : Z) (buttonState : bool) : list gamepad_op :=
  if Z.b2z buttonState =? 0 then [release button]
  else if Z.b2z buttonState =? 1 then [press button]
  else [].

(** [void convertHat(int hat)].  The local [hatstate] has no initialiser:
    [None] stands for a variable that was never assigned, and sending it is
    undefined. *)
Definition convertHat (hat : Z) : option (list gamepad_op) :=
  let hatstate : option Z := None in
  let hatstate := if hat =? 0 then Some 1 else hatstate in
  let hatstate := if hat =? 1 then Some 3 else hatstate in
  let hatstate := if hat =? 2 then Some 5 else hatstate in
  let hatstate := if hat =? 3 then Some 7 else hatstate in
  match hatstate with
  | Some h => Some [setHat1 h]
  | None => None
  end.

Definition run_call (c : call) : option (list gamepad_op) :=
  match c with
  | CsetHat1 h => Some [setHat1 h]
  | CsetButton b s => Some (setButton b s)
  | CconvertHat a => convertHat a
  | CsendReport => Some [sendReport]
  | Cdelay _ => Some []
  end.

(** The gamepad operations of a sequence of calls; [None] when one of them
    reads the unassigned [hatstate]. *)
Fixpoint gamepad_trace (cs : list call) : option (list gamepad_op) :=
  match cs with
  | [] => Some []
  | c :: cs' =>
      match run_call c, gamepad_trace cs' with
      | Some o, Some os => Some (o ++ os)
      | _, _ => None
      end
  end.

(** ** Statements *)

Definition stmt : Type := state -> state * list call.

Definition skip : stmt := fun s => (s, []).

Definition andthen (p q : stmt) : stmt :=
  fun s => let (s1, t1) := p s in
           let (s2, t2) := q s1 in (s2, t1 ++ t2).

Declare Scope stmt_scope.
Delimit Scope stmt_scope with stmt.
Notation "p ;; q" := (andthen p q) (at level 61, right associativity) : stmt_scope.
Local Open Scope stmt_scope.

Definition assign (f : state -> state) : stmt := fun s => (f s, []).

Definition invoke (c : state -> call) : stmt := fun s => (s, [c s]).

Definition ifelse (c : state -> bool) (p q : stmt) : stmt :=
  fun s => if c s then p s else q s.

Definition when (c : state -> bool) (p : stmt) : stmt := ifelse c p skip.

Fixpoint for_each {A : Type} (l : list A) (body : A -> stmt) : stmt :=
  match l with
  | [] => skip
  | x :: l' => body x ;; for_each l' body
  end.

(** ** The poll cycle *)

(** [currBytes[i] = ~hspi->transfer(0x00)] for the five bytes of a burst:
    the complement, stored into a [byte]. *)
Definition invert (raw : Z) : Z := Z.land (Z.lnot raw) 255.

Definition read_frame (raw : frame) : frame :=
  Frame (invert (byte0 raw)) (invert (byte1 raw)) (invert (byte2 raw))
        (invert (byte3 raw)) (invert (byte4 raw)).

Definition read_wheel (raw : frame) : stmt :=
  assign (set_currBytes (read_frame raw)).

(** [wheelbyte = currBytes[0] & B11100000], and the two auxiliary masks. *)
Definition id_bytes : stmt :=
  assign (fun s => set_wheelbyte (Z.land (byte_at (currBytes s) 0) 224) s) ;;
  assign (fun s => set_fourthbyte (Z.land (byte_at (currBytes s) 3) 32) s) ;;
  assign (fun s => set_fifthbyte (Z.land (byte_at (currBytes s) 4) 15) s).

(** The condition of the [while]: unknown wheel or wheel unplugged. *)
Definition unplugged (s : state) : bool :=
  negb (wheelbyte s =? 192) && negb (wheelbyte s =? 160) && negb (wheelbyte s =? 32).

(** Release the hat switch and the buttons 0 to 20, once. *)
Definition reset_buttons : stmt :=
  when (fun s => eqb (buttonsreset s) false)
    (invoke (fun _ => CsetHat1 HAT_CENTERED) ;;
     for_each (seq 0 21) (fun b => invoke (fun _ => CsetButton (Z.of_nat b) false)) ;;
     assign (set_buttonsreset true)).

(** The three-way [if] that names the wheel, with the nesting the braces of
    the sketch give it: the second and third tests are the [else] branches of
    [wheelIdentified == false]. *)
Definition identify : stmt :=
  ifelse (fun s => eqb (wheelIdentified s) false)
    (when (fun s => (wheelbyte s =? 160) && (fifthbyte s =? 0))
       (assign (identified_as 2 F599Btn)))
    (ifelse (fun s => wheelbyte s =? 32)
       (when (fun s => ((fourthbyte s =? 0) && (fifthbyte s =? 0))
                       || ((byte_at (currBytes s) 3 =? 255)
                           && (byte_at (currBytes s) 4 =? 255)))
          (assign (identified_as 3 R383Btn)))
       (when (fun s => (wheelbyte s =? 32) && (fifthbyte s =? 15))
          (assign (identified_as 1 F1Btn)))).

(** [bit2btn[(i*8)+b]]. *)
Definition entry (s : state) (i b : nat) : Z := nth (i * 8 + b) (bit2btn s) 0.

(** The body of the two nested [for] loops over bytes and bits. *)
Definition bit_body (i b : nat) : stmt :=
  when (fun s => negb (Z.land (byte_at (currBytes s) i) (pos_at b)
                       =? Z.land (byte_at (prevBytes s) i) (pos_at b)))
    (assign (fun s => set_btnState
                        (negb (Z.land (byte_at (currBytes s) i) (pos_at b) =? 0)) s) ;;
     ifelse (fun s => (31 <=? entry s i b) && (entry s i b <=? 34))
       (ifelse (fun s => Z.b2z (btnState s) =? 0)
          (invoke (fun _ => CsetHat1 HAT_CENTERED))
          (invoke (fun s => CconvertHat (entry s i b - 31))))
       (invoke (fun s => CsetButton (entry s i b) (btnState s)))).

Definition buttons : stmt :=
  when wheelIdentified
    (for_each (seq 0 4) (fun i => for_each (seq 0 8) (fun b => bit_body i b))).

(** Only for the R383 wheel: the hat switch pressed in the middle. *)
Definition joy_button : stmt :=
  when (fun s => wheelIdentified s && (wheelID s =? 3))
    (assign (fun s => set_joyBtnState
                        (negb (Z.land (byte_at (currBytes s) 3) (pos_at 0) =? 0)
                         && (Z.land (byte_at (currBytes s) 2) 0x3c =? 0)) s) ;;
     when (fun s => negb (eqb (joyBtnState s) (prevJoyBtnState s)))
       (invoke (fun s => CsetButton 13 (joyBtnState s)))).

Definition save_prev : stmt :=
  assign (fun s => set_prevBytes (currBytes s) s) ;;
  assign (fun s => set_prevJoyBtnState (joyBtnState s) s).

(** Everything of [loop] after the [while]. *)
Definition finish : stmt :=
  identify ;; buttons ;; joy_button ;; invoke (fun _ => CsendReport) ;; save_prev.

(** How a call of [loop] ends: it returns, or it is still inside the [while]
    when the bursts given to the model are used up. *)
Inductive outcome : Type :=
| Completed (s : state) (calls : list call) (rest : list frame)
| Waiting (s : state) (calls : list call).

(** The [while] loop and what follows it.  [reads] are the bursts the wheel
    will answer to the next reads; [tr] the calls made so far. *)
Fixpoint wait_wheel (reads : list frame) (s : state) (tr : list call) : outcome :=
  if unplugged s then
    let (s1, t1) := (assign (set_wheelIdentified false) ;; reset_buttons) s in
    match reads with
    | [] => Waiting s1 (tr ++ t1)
    | raw :: reads' =>
        let (s2, t2) :=
          (read_wheel raw ;; id_bytes ;;
           when unplugged (invoke (fun _ => Cdelay 1000))) s1 in
        wait_wheel reads' s2 (tr ++ t1 ++ t2)
    end
  else
    let (s', t') := finish s in Completed s' (tr ++ t') reads.

(** [void loop()].  [isConnected] is the answer of [bleGamepad.isConnected()]. *)
Definition loop (isConnected : bool) (reads : list frame) (s : state) : outcome :=
  if isConnected then
    match reads with
    | [] => Waiting s []
    | raw :: reads' =>
        let (s1, t1) :=
          (read_wheel raw ;; id_bytes ;; assign (set_buttonsreset false)) s in
        wait_wheel reads' s1 t1
    end
  else Completed s [] reads.

Definition calls_of (o : outcome) : list call :=
  match o with
  | Completed _ t _ => t
  | Waiting _ t => t
  end.

Definition state_of (o : outcome) : state :=
  match o with
  | Completed s _ _ => s
  | Waiting s _ => s
  end.

(** The raw burst that reads as the frame with the given (polarity
    corrected) bytes. *)
Definition raw_of (a b c d e : Z) : frame :=
  Frame (255 - a) (255 - b) (255 - c) (255 - d) (255 - e).

(** ** The cycle in closed form *)

(** The calls of one pass through [bit_body], as a function of the table and
    of the two frames. *)
Definition bit_calls (tbl : list Z) (cur prev : frame) (i b : nat) : list call :=
  if Z.land (byte_at cur i) (pos_at b) =? Z.land (byte_at prev i) (pos_at b)
  then []
  else
    let e := nth (i * 8 + b) tbl 0 in
    let on := negb (Z.land (byte_at cur i) (pos_at b) =? 0) in
    if (31 <=? e) && (e <=? 34)
    then if on then [CconvertHat (e - 31)] else [CsetHat1 HAT_CENTERED]
    else [CsetButton e on].

Definition byte_calls (tbl : list Z) (cur prev : frame) (i : nat) : list call :=
  flat_map (bit_calls tbl cur prev i) (seq 0 8).

Definition diff_calls (tbl : list Z) (cur prev : frame) : list call :=
  flat_map (byte_calls tbl cur prev) (seq 0 4).

(** [joyBtnState] as line 285 computes it. *)
Definition joy_of (cur : frame) : bool :=
  negb (Z.land (byte_at cur 3) (pos_at 0) =? 0)
  && (Z.land (byte_at cur 2) 0x3c =? 0).

Definition joy_calls (s : state) : list call :=
  if wheelIdentified s && (wheelID s =? 3)
  then if negb (eqb (joy_of (currBytes s)) (prevJoyBtnState s))
       then [CsetButton 13 (joy_of (currBytes s))] else []
  else [].

(** The state after the identification step. *)
Definition who (s : state) : state := fst (identify s).

(** The calls of the reset block. *)
Definition reset_calls : list call :=
  CsetHat1 HAT_CENTERED :: map (fun b => CsetButton (Z.of_nat b) false) (seq 0 21).

(** The header of a frame and the two auxiliary values. *)
Definition header (f : frame) : Z := Z.land (byte0 f) 224.
Definition aux4 (f : frame) : Z := Z.land (byte3 f) 32.
Definition aux5 (f : frame) : Z := Z.land (byte4 f) 15.

(** A header that ends the [while]. *)
Definition recognized (f : frame) : bool :=
  (header f =? 192) || (header f =? 160) || (header f =? 32).

(** The state when the first burst of a cycle has been read and masked, and
    [buttonsreset] cleared. *)
Definition latched (f : frame) (s : state) : state :=
  State f (prevBytes s) (header f) (aux4 f) (aux5 f) (wheelID s) (btnState s)
        (joyBtnState s) (prevJoyBtnState s) false (wheelIdentified s) (bit2btn s).

(** The state at the end of a pass through the body of the [while] in which
    the frame [f] was read. *)
Definition absent_state (f : frame) (s : state) : state :=
  State f (prevBytes s) (header f) (aux4 f) (aux5 f) (wheelID s) (btnState s)
        (joyBtnState s) (prevJoyBtnState s) true false (bit2btn s).

(** The reset still to be made when the body of the [while] is entered. *)
Definition pending_reset (s : state) : list call :=
  if buttonsreset s then [] else reset_calls.

(** ** States between two calls of [loop] *)

Inductive reachable : state -> Prop :=
| reachable_init : reachable init
| reachable_loop (c : bool) (reads : list frame) (s s' : state)
                 (tr : list call) (rest : list frame) :
    reachable s -> loop c reads s = Completed s' tr rest -> reachable s'.

(** The second test of [identify], on a frame. *)
Definition r383_pattern (f : frame) : bool :=
  ((aux4 f =? 0) && (aux5 f =? 0)) || ((byte3 f =? 255) && (byte4 f =? 255)).

(** The three masked values are those of the current frame. *)
Definition synced (s : state) : Prop :=
  wheelbyte s = header (currBytes s)
  /\ fourthbyte s = aux4 (currBytes s)
  /\ fifthbyte s = aux5 (currBytes s).

(** What holds of the stored frame while a wheel is identified. *)
Definition consistent (s : state) : Prop :=
  wheelIdentified s = true ->
  recognized (prevBytes s) = true
  /\ (wheelID s = 3 -> prevJoyBtnState s = joy_of (prevBytes s))
  /\ (header (prevBytes s) = 32 -> r383_pattern (prevBytes s) = true -> wheelID s = 3).

(** The working array holds its initial contents or one of the tables. *)
Definition known_table (t : list Z) : Prop :=
  t = bit2btn0 \/ t = F599Btn \/ t = R383Btn \/ t = F1Btn.

(** A button operation names button -1 or one of the buttons 0 to 20. *)
Definition button_in_range (o : gamepad_op) : Prop :=
  match o with
  | press b | release b => -1 <= b <= 20
  | _ => True
  end.

(** A call of [convertHat] has its argument among 0, 1, 2, 3. *)
Definition hat_arg_ok (c : call) : Prop :=
  match c with
  | CconvertHat a => 0 <= a <= 3
  | _ => True
  end.

(** Both bounds at once. *)
Definition call_ok (c : call) : Prop :=
  match c with
  | CsetButton e _ => -1 <= e <= 20
  | CconvertHat a => 0 <= a <= 3
  | _ => True
  end.

(** An entry of a table: the marker -1, a button 0 to 20, or a hat tag. *)
Definition entry_ok (e : Z) : Prop := -1 <= e <= 20 \/ 31 <= e <= 34.

(** ** The change detector as the specification words it *)

(** The signal of byte [i] that the loop index [b] selects: [pos[b]] is bit
    [7 - b]. *)
Definition bit_at (f : frame) (i b : nat) : bool :=
  Z.testbit (byte_at f i) (Z.of_nat (7 - b)).

Definition is_hat_tag (e : Z) : bool := (31 <=? e) && (e <=? 34).

(** The event for a target that became active, and for one that became
    inactive. *)
Definition active_op (e : Z) : gamepad_op :=
  if is_hat_tag e then setHat1 (2 * (e - 31) + 1) else press e.

Definition inactive_op (e : Z) : gamepad_op :=
  if is_hat_tag e then setHat1 HAT_CENTERED else release e.

(** Nothing for a bit that holds; one event for a bit that changed. *)
Definition transition_ops (tbl : list Z) (cur prev : frame) (i b : nat)
  : list gamepad_op :=
  match bit_at prev i b, bit_at cur i b with
  | false, true => [active_op (nth (i * 8 + b) tbl 0)]
  | true, false => [inactive_op (nth (i * 8 + b) tbl 0)]
  | _, _ => []
  end.

Definition diff_ops (tbl : list Z) (cur prev : frame) : list gamepad_op :=
  flat_map (fun i => flat_map (transition_ops tbl cur prev i) (seq 0 8)) (seq 0 4).

(** The synthetic button of the R383 wheel. *)
Definition synthetic_ops (id : Z) (cur : frame) (before : bool) : list gamepad_op :=
  if id =? 3
  then if eqb (joy_of cur) before then []
       else [if joy_of cur then press 13 else release 13]
  else [].

(** ** The wheels and their paddles *)

(** The three rims, with the value [wheelID] takes for each. *)
Inductive wheel : Set := F1 | F599 | R383.

Definition table_of (w : wheel) : list Z :=
  match w with
  | F1 => F1Btn
  | F599 => F599Btn
  | R383 => R383Btn
  end.

(** Byte (1 to 4) and bit (7 to 0) of the paddles, as the table at the head
    of the sketch lists them. *)
Definition left_paddle (w : wheel) : nat * nat :=
  match w with
  | R383 => (3, 0)
  | F1 => (1, 3)
  | F599 => (1, 4)
  end%nat.

Definition right_paddle (w : wheel) : nat * nat :=
  match w with
  | R383 => (2, 7)
  | F1 => (1, 2)
  | F599 => (1, 3)
  end%nat.

(** The index [(i*8)+b] under which [loop] looks a listed bit up: byte [n]
    is [currBytes[n-1]], and bit [k] is selected by [pos[7-k]]. *)
Definition table_index (p : nat * nat) : nat := ((fst p - 1) * 8 + (7 - snd p))%nat.

(** The official Thrustmaster number of the button the sketch numbers [e]:
    the head of the sketch counts from 1, the tables from 0. *)
Definition published (e : Z) : Z := e + 1.

(** ** Some states of a 599xx wheel *)

(** After the first cycle with a 599xx wheel attached and nothing pressed. *)
Definition s_599 : state := state_of (loop true [raw_of 0xA0 0 0 0 0] init).

(** After a further cycle in which the left paddle is held. *)
Definition s_599_paddle : state := state_of (loop true [raw_of 0xB0 0 0 0 0] s_599).

(** [a[i] & pos[b]], the value the scan compares and tests. *)
Definition masked (f : frame) (i b : nat) : Z := Z.land (byte_at f i) (pos_at b).

(** ** Debug output *)

(** The [for] of [printBinary], entered with [i = n]: a ["0"] for every
    [i] down to 1 with [data >> i == 0], until the first [i] where that
    fails. *)
Fixpoint zero_pad (data : Z) (n : nat) : list ascii :=
  match n with
  | O => []
  | S n' =>
      if Z.shiftr data (Z.of_nat n) =? 0
      then "0"%char :: zero_pad data n'
      else []
  end.

(** [void printBinary(byte data)]: what it writes to the serial port.
    [print_BIN] is [Serial.print(data, BIN)] of the Arduino core. *)
Definition printBinary (print_BIN : Z -> list ascii) (data : Z) : list ascii :=
  zero_pad data 7 ++ print_BIN data ++ [" "%char].

(** The binary numeral of a number, most significant digit first, without
    leading zeros, and ["0"] for zero. *)
Fixpoint binary_digits (p : positive) : list ascii :=
  match p with
  | xH => ["1"%char]
  | xO p' => binary_digits p' ++ ["0"%char]
  | xI p' => binary_digits p' ++ ["1"%char]
  end.

Definition binary_numeral (n : Z) : list ascii :=
  match n with
  | Z0 => ["0"%char]
  | Zpos p => binary_digits p
  | Zneg _ => []
  end.

(** The eight bits of a byte, bit 7 first. *)
Definition bits8 (data : Z) : list ascii :=
  map (fun k => if Z.testbit data k then "1"%char else "0"%char)
      [7; 6; 5; 4; 3; 2; 1; 0].

(** ** Invariants of the cycle *)

(** A call made inside the [while]: one of the reset, or the wait. *)
Definition wait_call (c : call) : Prop := In c reset_calls \/ c = Cdelay 1000.

(** [wheelID] and the working array go together. *)
Definition coherent (s : state) : Prop :=
  (wheelID s = 0 /\ bit2btn s = bit2btn0 /\ wheelIdentified s = false)
  \/ (wheelID s = 2 /\ bit2btn s = F599Btn)
  \/ (wheelID s = 3 /\ bit2btn s = R383Btn).

Definition is_byte (x : Z) : Prop := 0 <= x <= 255.

Definition byte_frame (f : frame) : Prop :=
  is_byte (byte0 f) /\ is_byte (byte1 f) /\ is_byte (byte2 f)
  /\ is_byte (byte3 f) /\ is_byte (byte4 f).

(** An operation that releases a button, centers the hat or sends the
    report. *)
Definition releasing (o : gamepad_op) : Prop :=
  o = setHat1 HAT_CENTERED \/ (exists b, o = release b) \/ o = sendReport.

(** The operation presses or releases button [b]. *)
Definition touches (b : Z) (o : gamepad_op) : bool :=
  match o with
  | press x | release x => x =? b
  | _ => false
  end.

Definition touch_count (b : Z) (ops : list gamepad_op) : nat :=
  length (filter (touches b) ops).

(** The number of bits of a table that hold [b]. *)
Definition hits (tbl : list Z) (b : Z) : nat :=
  list_sum
    (map (fun i =>
            list_sum (map (fun k => if nth (i * 8 + k) tbl 0 =? b then 1%nat else 0%nat)
                          (seq 0 8)))
         (seq 0 4)).

Example first_cycle_599 :
  calls_of (loop true [raw_of 0xA0 0 0 0 0] init)
  = [CsetButton (-1) true; CsetButton (-1) true; CsendReport].
Proof. vm_compute. reflexivity. Qed.

(** ** Basic facts about statements *)

Lemma set_btnState_same (s : state) : set_btnState (btnState s) s = s.
Proof. destruct s; reflexivity. Qed.

Lemma for_each_btn {A : Type} (body : A -> stmt) (f : state -> A -> list call) :
  (forall v s, f (set_btnState v s) = f s) ->
  (forall x s, exists v, body x s = (set_btnState v s, f s x)) ->
  forall l s, exists v, for_each l body s = (set_btnState v s, flat_map (f s) l).
Proof.
  intros Hf Hb l. induction l as [|x l IH]; intros s; simpl.
  - exists (btnState s). unfold skip. now rewrite set_btnState_same.
  - unfold andthen. destruct (Hb x s) as [v Hv]. rewrite Hv.
    destruct (IH (set_btnState v s)) as [w Hw]. rewrite Hw.
    exists w. rewrite Hf. reflexivity.
Qed.

Lemma bit_body_spec (i b : nat) (s : state) :
  exists v, bit_body i b s
            = (set_btnState v s, bit_calls (bit2btn s) (currBytes s) (prevBytes s) i b).
Proof.
  unfold bit_body, bit_calls, when, ifelse, andthen, assign, invoke, skip, entry.
  cbn [currBytes prevBytes bit2btn btnState set_btnState].
  destruct (Z.land (byte_at (currBytes s) i) (pos_at b)
            =? Z.land (byte_at (prevBytes s) i) (pos_at b)); cbn [negb].
  - exists (btnState s). now rewrite set_btnState_same.
  - destruct ((31 <=? _) && (_ <=? 34));
      destruct (Z.land (byte_at (currBytes s) i) (pos_at b) =? 0);
      eexists; reflexivity.
Qed.

Lemma buttons_spec (s : state) :
  exists v, buttons s
            = (set_btnState v s,
               if wheelIdentified s
               then diff_calls (bit2btn s) (currBytes s) (prevBytes s) else []).
Proof.
  unfold buttons, when, ifelse, skip. destruct (wheelIdentified s).
  - apply (for_each_btn _ (fun s i => byte_calls (bit2btn s) (currBytes s) (prevBytes s) i)).
    + reflexivity.
    + intros i s'.
      apply (for_each_btn _ (fun s b => bit_calls (bit2btn s) (currBytes s) (prevBytes s) i b)).
      * reflexivity.
      * intros b s''. apply bit_body_spec.
  - exists (btnState s). now rewrite set_btnState_same.
Qed.

Lemma identify_eq (s : state) : identify s = (who s, []).
Proof.
  cbv beta delta [who identify ifelse when assign skip].
  repeat match goal with |- context [if ?c then _ else _] => destruct c end;
    reflexivity.
Qed.

Lemma who_frame (s : state) :
  currBytes (who s) = currBytes s /\ prevBytes (who s) = prevBytes s
  /\ wheelbyte (who s) = wheelbyte s /\ fourthbyte (who s) = fourthbyte s
  /\ fifthbyte (who s) = fifthbyte s /\ joyBtnState (who s) = joyBtnState s
  /\ prevJoyBtnState (who s) = prevJoyBtnState s
  /\ buttonsreset (who s) = buttonsreset s /\ btnState (who s) = btnState s.
Proof.
  cbv beta delta [who identify ifelse when assign skip].
  repeat match goal with |- context [if ?c then _ else _] => destruct c end;
    cbn; repeat split; reflexivity.
Qed.

Lemma finish_spec (s : state) :
  exists v,
    finish s
    = (State (currBytes s) (currBytes s) (wheelbyte s) (fourthbyte s) (fifthbyte s)
             (wheelID (who s)) v
             (if wheelIdentified (who s) && (wheelID (who s) =? 3)
              then joy_of (currBytes s) else joyBtnState s)
             (if wheelIdentified (who s) && (wheelID (who s) =? 3)
              then joy_of (currBytes s) else joyBtnState s)
             (buttonsreset s) (wheelIdentified (who s)) (bit2btn (who s)),
       (if wheelIdentified (who s)
        then diff_calls (bit2btn (who s)) (currBytes s) (prevBytes s) else [])
       ++ joy_calls (who s) ++ [CsendReport]).
Proof.
  destruct (who_frame s) as (Hc & Hp & Hw & H4 & H5 & Hj & Hpj & Hr & _).
  unfold finish. unfold andthen at 1. rewrite identify_eq.
  unfold andthen at 1. destruct (buttons_spec (who s)) as [v Hv]. rewrite Hv.
  exists v. rewrite Hc, Hp.
  cbv beta delta [joy_calls joy_button save_prev when ifelse andthen assign invoke skip].
  cbn [currBytes prevBytes wheelbyte fourthbyte fifthbyte wheelID btnState joyBtnState
       prevJoyBtnState buttonsreset wheelIdentified bit2btn set_btnState
       set_joyBtnState set_prevBytes set_prevJoyBtnState].
  rewrite ?Hc, ?Hpj.
  fold (joy_of (currBytes s)).
  destruct (wheelIdentified (who s) && (wheelID (who s) =? 3));
    [destruct (negb (eqb (joy_of (currBytes s)) (prevJoyBtnState s)))|];
    cbv beta delta [set_btnState set_joyBtnState set_prevBytes set_prevJoyBtnState];
    cbn [currBytes prevBytes wheelbyte fourthbyte fifthbyte wheelID btnState
         joyBtnState prevJoyBtnState buttonsreset wheelIdentified bit2btn app];
    rewrite ?Hc, ?Hw, ?H4, ?H5, ?Hj, ?Hr, ?app_nil_r; reflexivity.
Qed.

(** ** The [while] loop *)

Lemma unplugged_latched (f : frame) (s : state) :
  unplugged (latched f s) = negb (recognized f).
Proof.
  unfold unplugged, recognized. cbn [wheelbyte latched].
  destruct (header f =? 192), (header f =? 160), (header f =? 32); reflexivity.
Qed.

Lemma unplugged_absent_state (f : frame) (s : state) :
  unplugged (absent_state f s) = negb (recognized f).
Proof.
  unfold unplugged, recognized. cbn [wheelbyte absent_state].
  destruct (header f =? 192), (header f =? 160), (header f =? 32); reflexivity.
Qed.

Lemma wait_done (reads : list frame) (s : state) (tr : list call) :
  unplugged s = false ->
  wait_wheel reads s tr
  = let (s', t') := finish s in Completed s' (tr ++ t') reads.
Proof. intros H. destruct reads; cbn [wait_wheel]; rewrite H; reflexivity. Qed.

Lemma reset_eq (s : state) :
  (assign (set_wheelIdentified false) ;; reset_buttons) s
  = (set_buttonsreset true (set_wheelIdentified false s), pending_reset s).
Proof.
  unfold pending_reset. destruct s as [c p w f4 f5 id bs j pj br wi tbl].
  destruct br; reflexivity.
Qed.

Lemma wait_out (s : state) (tr : list call) :
  unplugged s = true ->
  wait_wheel [] s tr
  = Waiting (set_buttonsreset true (set_wheelIdentified false s))
            (tr ++ pending_reset s).
Proof. intros H. cbn [wait_wheel]. rewrite H, reset_eq. reflexivity. Qed.

Lemma wait_step (raw : frame) (reads : list frame) (s : state) (tr : list call) :
  unplugged s = true ->
  wait_wheel (raw :: reads) s tr
  = wait_wheel reads (absent_state (read_frame raw) s)
      (tr ++ pending_reset s
          ++ (if recognized (read_frame raw) then [] else [Cdelay 1000])).
Proof.
  intros H. cbn [wait_wheel]. rewrite H, reset_eq.
  pose proof (unplugged_absent_state (read_frame raw) s) as Hu.
  cbv beta delta [andthen read_wheel id_bytes assign when ifelse invoke skip].
  cbv beta delta [set_currBytes set_wheelbyte set_fourthbyte set_fifthbyte
                  set_buttonsreset set_wheelIdentified].
  cbn [currBytes prevBytes wheelbyte fourthbyte fifthbyte wheelID btnState
       joyBtnState prevJoyBtnState buttonsreset wheelIdentified bit2btn byte_at].
  fold (header (read_frame raw)) (aux4 (read_frame raw)) (aux5 (read_frame raw)).
  fold (absent_state (read_frame raw) s).
  rewrite Hu. destruct (recognized (read_frame raw)); reflexivity.
Qed.

Lemma wait_absent (rawN : frame) (rest raws : list frame) :
  recognized (read_frame rawN) = true ->
  Forall (fun r => recognized (read_frame r) = false) raws ->
  forall (s : state) (tr : list call),
    unplugged s = true ->
    wait_wheel (raws ++ rawN :: rest) s tr
    = let (s', t') := finish (absent_state (read_frame rawN) s) in
      Completed s' (tr ++ pending_reset s
                       ++ repeat (Cdelay 1000) (length raws) ++ t') rest.
Proof.
  intros HN Hall. induction Hall as [|r raws Hr _ IH]; intros s tr Hs.
  - cbn [app length repeat]. rewrite (wait_step _ _ _ _ Hs), HN.
    rewrite wait_done by (rewrite unplugged_absent_state, HN; reflexivity).
    destruct (finish _) as [s' t']. now rewrite <- !app_assoc.
  - cbn [app length repeat]. rewrite (wait_step _ _ _ _ Hs), Hr.
    rewrite IH by (rewrite unplugged_absent_state, Hr; reflexivity).
    change (absent_state (read_frame rawN) (absent_state (read_frame r) s))
      with (absent_state (read_frame rawN) s).
    destruct (finish _) as [s' t'].
    cbn [pending_reset buttonsreset absent_state app]. now rewrite <- !app_assoc.
Qed.

Lemma wait_starved (raws : list frame) :
  Forall (fun r => recognized (read_frame r) = false) raws ->
  forall (s : state) (tr : list call),
    unplugged s = true ->
    exists s',
      wait_wheel raws s tr
      = Waiting s' (tr ++ pending_reset s ++ repeat (Cdelay 1000) (length raws)).
Proof.
  intros Hall. induction Hall as [|r raws Hr _ IH]; intros s tr Hs.
  - rewrite (wait_out _ _ Hs). eexists. cbn [length repeat].
    now rewrite app_nil_r.
  - rewrite (wait_step _ _ _ _ Hs), Hr.
    destruct (IH (absent_state (read_frame r) s)
                 (tr ++ pending_reset s ++ [Cdelay 1000])) as [s' Hs'].
    { rewrite unplugged_absent_state, Hr; reflexivity. }
    exists s'. rewrite Hs'.
    cbn [pending_reset buttonsreset absent_state app length repeat].
    now rewrite <- !app_assoc.
Qed.

Lemma loop_first (raw : frame) (reads : list frame) (s : state) :
  loop true (raw :: reads) s = wait_wheel reads (latched (read_frame raw) s) [].
Proof. reflexivity. Qed.

(** ** Identification *)

Lemma who_seeking (s : state) :
  wheelIdentified s = false ->
  who s = if (wheelbyte s =? 160) && (fifthbyte s =? 0)
          then identified_as 2 F599Btn s else s.
Proof.
  intros H. cbv beta delta [who identify ifelse when assign skip].
  rewrite H. cbn [eqb]. destruct ((wheelbyte s =? 160) && (fifthbyte s =? 0)); reflexivity.
Qed.

Lemma who_identified (s : state) :
  wheelIdentified s = true ->
  who s = if (wheelbyte s =? 32)
             && (((fourthbyte s =? 0) && (fifthbyte s =? 0))
                 || ((byte3 (currBytes s) =? 255) && (byte4 (currBytes s) =? 255)))
          then identified_as 3 R383Btn s else s.
Proof.
  intros H. cbv beta delta [who identify ifelse when assign skip].
  rewrite H. cbn [eqb byte_at].
  destruct (wheelbyte s =? 32); cbn [andb]; [|reflexivity].
  destruct (((fourthbyte s =? 0) && (fifthbyte s =? 0))
            || ((byte3 (currBytes s) =? 255) && (byte4 (currBytes s) =? 255)));
    reflexivity.
Qed.

(** The branch that names the F1 wheel is never taken: [wheelID] becomes 1
    in no state. *)
Lemma F1_branch_dead (s : state) : wheelID (who s) = 1 -> wheelID s = 1.
Proof.
  destruct (wheelIdentified s) eqn:H.
  - rewrite (who_identified s H). destruct (_ && _); cbn; [discriminate|trivial].
  - rewrite (who_seeking s H). destruct (_ && _); cbn; [discriminate|trivial].
Qed.

(** A wheel that is not identified stays so on any frame whose header is not
    160: neither the R383 nor the F1 test is reached. *)
Lemma seeking_stays (s : state) :
  wheelIdentified s = false -> wheelbyte s <> 160 -> who s = s.
Proof.
  intros H Hw. rewrite (who_seeking s H).
  destruct (wheelbyte s =? 160) eqn:E; [apply Z.eqb_eq in E; contradiction|reflexivity].
Qed.

Lemma recognized_header (f : frame) :
  header f = 192 \/ header f = 160 \/ header f = 32 -> recognized f = true.
Proof.
  unfold recognized. intros [H|[H|H]]; rewrite H; reflexivity.
Qed.

(** A cycle whose first frame has a recognized header is [finish] on the
    latched state. *)
Lemma loop_plugged (raw : frame) (rest : list frame) (s : state) :
  recognized (read_frame raw) = true ->
  loop true (raw :: rest) s
  = let (s', t') := finish (latched (read_frame raw) s) in Completed s' t' rest.
Proof.
  intros H. rewrite loop_first, wait_done.
  - destruct (finish _); reflexivity.
  - rewrite unplugged_latched, H. reflexivity.
Qed.

(** C9. From a state in which no wheel is identified, a frame whose header
    is 160 and whose low nibble of byte 4 is 0 is taken for the 599xx wheel
    in the same cycle, whatever its other bits are: [wheelID] becomes 2, the
    599xx table is loaded and [wheelIdentified] is set. *)
Theorem C9_header160_is_599xx (s : state) (raw : frame) (rest : list frame) :
  wheelIdentified s = false ->
  header (read_frame raw) = 160 ->
  aux5 (read_frame raw) = 0 ->
  exists s' tr,
    loop true (raw :: rest) s = Completed s' tr rest
    /\ wheelIdentified s' = true /\ wheelID s' = 2 /\ bit2btn s' = F599Btn.
Proof.
  intros Hs Hh Ha.
  rewrite loop_plugged by (apply recognized_header; auto).
  destruct (finish_spec (latched (read_frame raw) s)) as [v Hv]. rewrite Hv.
  do 2 eexists. split; [reflexivity|].
  rewrite (who_seeking (latched (read_frame raw) s) Hs).
  cbn [wheelbyte fifthbyte latched]. rewrite Hh, Ha. cbn. auto.
Qed.

Lemma C9_header160_is_599xx_witness :
  exists s' tr,
    loop true [raw_of 0xA5 0xFF 0x3C 0xFF 0xF0] init = Completed s' tr []
    /\ wheelIdentified s' = true /\ wheelID s' = 2 /\ bit2btn s' = F599Btn.
Proof.
  apply (C9_header160_is_599xx init (raw_of 0xA5 0xFF 0x3C 0xFF 0xF0) []);
    reflexivity.
Defined.

(** The same after an absence: the [while] leaves [wheelIdentified] false,
    so the frame that ends it is tested by the 599xx rule. *)
Lemma header160_after_absence (s : state) (raw0 rawN : frame) (raws rest : list frame) :
  recognized (read_frame raw0) = false ->
  Forall (fun r => recognized (read_frame r) = false) raws ->
  header (read_frame rawN) = 160 ->
  aux5 (read_frame rawN) = 0 ->
  exists s' tr,
    loop true (raw0 :: raws ++ rawN :: rest) s = Completed s' tr rest
    /\ wheelIdentified s' = true /\ wheelID s' = 2 /\ bit2btn s' = F599Btn.
Proof.
  intros H0 Hall Hh Ha.
  rewrite loop_first, (wait_absent rawN rest raws) ; auto.
  2: apply recognized_header; auto.
  2: rewrite unplugged_latched, H0; reflexivity.
  destruct (finish_spec (absent_state (read_frame rawN) (latched (read_frame raw0) s)))
    as [v Hv]. rewrite Hv.
  do 2 eexists. split; [reflexivity|].
  rewrite who_seeking by reflexivity.
  cbn [wheelbyte fifthbyte absent_state]. rewrite Hh, Ha. cbn. auto.
Qed.

(** C2. The frame (0x20,0,0,0,0x0F) has header 32 and low nibble 15, the
    pattern the sketch gives for the F1 wheel, but the test for it is the
    [else] of an [else]: the cycle ends with no wheel identified, [wheelID]
    and the working array untouched. *)
Theorem C2_F1_frame_not_identified :
  read_frame (raw_of 0x20 0 0 0 0x0F) = Frame 0x20 0 0 0 0x0F
  /\ header (Frame 0x20 0 0 0 0x0F) = 32
  /\ aux5 (Frame 0x20 0 0 0 0x0F) = 15
  /\ wheelIdentified init = false
  /\ exists s',
       loop true [raw_of 0x20 0 0 0 0x0F] init = Completed s' [CsendReport] []
       /\ wheelIdentified s' = false /\ wheelID s' = 0 /\ bit2btn s' = bit2btn0.
Proof.
  repeat split; try reflexivity.
  eexists. split; [vm_compute; reflexivity|]. repeat split; reflexivity.
Qed.

(** C3. Neither frame of the R383 pattern is identified from the state in
    which no wheel is: header 32 with both auxiliary values 0, and header 32
    with bytes 3 and 4 all ones. *)
Theorem C3_R383_frames_not_identified :
  header (Frame 0x20 0 0 0 0) = 32
  /\ r383_pattern (Frame 0x20 0 0 0 0) = true
  /\ header (Frame 0x20 0 0 0xFF 0xFF) = 32
  /\ r383_pattern (Frame 0x20 0 0 0xFF 0xFF) = true
  /\ wheelIdentified init = false
  /\ (exists s',
        loop true [raw_of 0x20 0 0 0 0] init = Completed s' [CsendReport] []
        /\ currBytes s' = Frame 0x20 0 0 0 0
        /\ wheelIdentified s' = false /\ wheelID s' = 0 /\ bit2btn s' = bit2btn0)
  /\ (exists s',
        loop true [raw_of 0x20 0 0 0xFF 0xFF] init = Completed s' [CsendReport] []
        /\ currBytes s' = Frame 0x20 0 0 0xFF 0xFF
        /\ wheelIdentified s' = false /\ wheelID s' = 0 /\ bit2btn s' = bit2btn0).
Proof.
  repeat split; try reflexivity.
  - eexists. split; [vm_compute; reflexivity|]. repeat split; reflexivity.
  - eexists. split; [vm_compute; reflexivity|]. repeat split; reflexivity.
Qed.

(** From any state in which no wheel is identified, a frame with header 32
    leaves it so, whatever its other bits. *)
Lemma header32_from_seeking (s : state) (raw : frame) (rest : list frame) :
  wheelIdentified s = false ->
  header (read_frame raw) = 32 ->
  exists s',
    loop true (raw :: rest) s = Completed s' [CsendReport] rest
    /\ wheelIdentified s' = false /\ wheelID s' = wheelID s
    /\ bit2btn s' = bit2btn s.
Proof.
  intros Hs Hh.
  rewrite loop_plugged by (apply recognized_header; auto).
  destruct (finish_spec (latched (read_frame raw) s)) as [v Hv]. rewrite Hv.
  rewrite seeking_stays; [|exact Hs|cbn [wheelbyte latched]; rewrite Hh; discriminate].
  unfold joy_calls. cbn [wheelIdentified wheelID bit2btn latched]. rewrite Hs.
  cbn [andb app]. eexists. split; [reflexivity|]. auto.
Qed.

(** With a wheel already identified the R383 test is reached, and both of
    its patterns load the R383 table. *)
Lemma R383_from_identified (s : state) (raw : frame) (rest : list frame) :
  wheelIdentified s = true ->
  header (read_frame raw) = 32 ->
  r383_pattern (read_frame raw) = true ->
  exists s' tr,
    loop true (raw :: rest) s = Completed s' tr rest
    /\ wheelIdentified s' = true /\ wheelID s' = 3 /\ bit2btn s' = R383Btn.
Proof.
  intros Hs Hh Hp.
  rewrite loop_plugged by (apply recognized_header; auto).
  destruct (finish_spec (latched (read_frame raw) s)) as [v Hv]. rewrite Hv.
  do 2 eexists. split; [reflexivity|].
  rewrite (who_identified (latched (read_frame raw) s) Hs).
  cbn [wheelbyte fourthbyte fifthbyte currBytes latched]. rewrite Hh.
  unfold r383_pattern in Hp. rewrite Hp. cbn. auto.
Qed.

(** Every frame of five bytes is what some burst reads as. *)
Lemma invert_byte (a : Z) : 0 <= a < 256 -> invert (255 - a) = a.
Proof.
  intros H. unfold invert, Z.lnot.
  change 255 with (Z.ones 8). rewrite Z.land_ones by lia.
  change (Z.ones 8) with 255. change (2 ^ 8) with 256.
  replace (Z.pred (- (255 - a))) with (a + (-1) * 256) by lia.
  rewrite Z.mod_add by lia. apply Z.mod_small. exact H.
Qed.

Lemma read_frame_raw_of (a b c d e : Z) :
  0 <= a < 256 -> 0 <= b < 256 -> 0 <= c < 256 -> 0 <= d < 256 -> 0 <= e < 256 ->
  read_frame (raw_of a b c d e) = Frame a b c d e.
Proof.
  intros Ha Hb Hc Hd He. unfold read_frame, raw_of.
  cbn [byte0 byte1 byte2 byte3 byte4].
  now rewrite !invert_byte.
Qed.

(** ** Gamepad operations of a sequence of calls *)

Lemma gamepad_trace_app (a b : list call) :
  gamepad_trace (a ++ b)
  = match gamepad_trace a, gamepad_trace b with
    | Some x, Some y => Some (x ++ y)
    | _, _ => None
    end.
Proof.
  induction a as [|c a IH]; cbn [app gamepad_trace].
  - destruct (gamepad_trace b); reflexivity.
  - rewrite IH. destruct (run_call c), (gamepad_trace a), (gamepad_trace b);
      try reflexivity. now rewrite app_assoc.
Qed.

Lemma gamepad_trace_delays (n : nat) :
  gamepad_trace (repeat (Cdelay 1000) n) = Some [].
Proof. induction n as [|n IH]; cbn [repeat gamepad_trace run_call]; [|rewrite IH]; reflexivity. Qed.

Lemma gamepad_trace_flat_map {A : Type} (f : A -> list call) (g : A -> list gamepad_op)
      (l : list A) :
  (forall x, In x l -> gamepad_trace (f x) = Some (g x)) ->
  gamepad_trace (flat_map f l) = Some (flat_map g l).
Proof.
  induction l as [|x l IH]; intros H; cbn [flat_map]; [reflexivity|].
  rewrite gamepad_trace_app, (H x (or_introl eq_refl)), IH; [reflexivity|].
  intros y Hy. apply H. now right.
Qed.

(** ** Absence *)

(** C5. A cycle whose first frame has none of the headers 192, 160, 32
    releases the hat switch and the buttons 0 to 20 once, before the first
    retry; every further frame with such a header only adds the wait of one
    second.  This holds while the wheel stays away (the call has not
    returned) and when a recognized header ends the episode (what follows is
    the rest of the cycle on the frame that ended it). *)
Theorem C5_reset_once_per_absence
        (s : state) (raw0 rawN : frame) (raws rest : list frame) :
  recognized (read_frame raw0) = false ->
  Forall (fun r => recognized (read_frame r) = false) raws ->
  recognized (read_frame rawN) = true ->
  (exists s',
      loop true (raw0 :: raws) s
      = Waiting s' (reset_calls ++ repeat (Cdelay 1000) (length raws)))
  /\ (exists s',
        loop true (raw0 :: raws ++ rawN :: rest) s
        = Completed s'
            (reset_calls ++ repeat (Cdelay 1000) (length raws)
               ++ snd (finish (absent_state (read_frame rawN) s)))
            rest)
  /\ gamepad_trace (reset_calls ++ repeat (Cdelay 1000) (length raws))
     = Some (setHat1 HAT_CENTERED :: map (fun b => release (Z.of_nat b)) (seq 0 21)).
Proof.
  intros H0 Hall HN.
  assert (Hu : unplugged (latched (read_frame raw0) s) = true)
    by (rewrite unplugged_latched, H0; reflexivity).
  split; [|split].
  - rewrite loop_first.
    destruct (wait_starved raws Hall _ [] Hu) as [s' Hs']. exists s'. exact Hs'.
  - rewrite loop_first, (wait_absent rawN rest raws HN Hall _ [] Hu).
    change (absent_state (read_frame rawN) (latched (read_frame raw0) s))
      with (absent_state (read_frame rawN) s).
    destruct (finish _) as [s' t']. exists s'. reflexivity.
  - rewrite gamepad_trace_app, gamepad_trace_delays. reflexivity.
Qed.

Lemma C5_reset_once_per_absence_witness :
  (exists s',
      loop true [raw_of 0xFF 0xFF 0xFF 0xFF 0xFF; raw_of 0 0 0 0 0;
                 raw_of 0x40 1 2 3 4] s_599_paddle
      = Waiting s' (reset_calls ++ repeat (Cdelay 1000) 2))
  /\ (exists s',
        loop true [raw_of 0xFF 0xFF 0xFF 0xFF 0xFF; raw_of 0 0 0 0 0;
                   raw_of 0x40 1 2 3 4; raw_of 0xA0 0 0 0 0] s_599_paddle
        = Completed s'
            (reset_calls ++ repeat (Cdelay 1000) 2
               ++ snd (finish (absent_state (read_frame (raw_of 0xA0 0 0 0 0))
                                            s_599_paddle)))
            [])
  /\ gamepad_trace (reset_calls ++ repeat (Cdelay 1000) 2)
     = Some (setHat1 HAT_CENTERED :: map (fun b => release (Z.of_nat b)) (seq 0 21)).
Proof.
  apply (C5_reset_once_per_absence s_599_paddle
           (raw_of 0xFF 0xFF 0xFF 0xFF 0xFF) (raw_of 0xA0 0 0 0 0)
           [raw_of 0 0 0 0 0; raw_of 0x40 1 2 3 4] []).
  - reflexivity.
  - repeat constructor.
  - reflexivity.
Defined.

(** The [while] never writes [prevBytes]: the call in which a wheel went
    away and came back compares the frame that ended the absence with the
    frame stored before it. *)
Lemma absence_call_trace
        (s : state) (raw0 rawN : frame) (raws rest : list frame) :
  recognized (read_frame raw0) = false ->
  Forall (fun r => recognized (read_frame r) = false) raws ->
  recognized (read_frame rawN) = true ->
  exists s' tr,
    loop true (raw0 :: raws ++ rawN :: rest) s = Completed s' tr rest
    /\ currBytes s' = read_frame rawN
    /\ prevBytes s' = read_frame rawN
    /\ (wheelIdentified s' = true ->
        tr = reset_calls ++ repeat (Cdelay 1000) (length raws)
             ++ diff_calls (bit2btn s') (read_frame rawN) (prevBytes s)
             ++ [CsendReport])
    /\ (wheelIdentified s' = false ->
        tr = reset_calls ++ repeat (Cdelay 1000) (length raws) ++ [CsendReport]).
Proof.
  intros H0 Hall HN.
  assert (Hu : unplugged (latched (read_frame raw0) s) = true)
    by (rewrite unplugged_latched, H0; reflexivity).
  rewrite loop_first, (wait_absent rawN rest raws HN Hall _ [] Hu).
  change (absent_state (read_frame rawN) (latched (read_frame raw0) s))
    with (absent_state (read_frame rawN) s).
  destruct (finish_spec (absent_state (read_frame rawN) s)) as [v Hv]. rewrite Hv.
  do 2 eexists. split; [reflexivity|].
  rewrite who_seeking by reflexivity. unfold joy_calls.
  destruct ((wheelbyte _ =? 160) && (fifthbyte _ =? 0));
    cbn; repeat split; intros; try discriminate; reflexivity.
Qed.

(** C4 as stated fails.  The left paddle of a 599xx wheel is held when the
    wheel is pulled off; the stored frame is (0xB0,0,0,0,0).  The wheel comes
    back with nothing pressed: after the reset the cycle calls
    [setButton(0, false)], the difference between the new frame and the
    stored one.  With another stored frame the same reads give no such
    call. *)
Lemma C4_counterexample :
  wheelIdentified s_599_paddle = true
  /\ prevBytes s_599_paddle = Frame 0xB0 0 0 0 0
  /\ recognized (read_frame (raw_of 0 0 0 0 0)) = false
  /\ read_frame (raw_of 0xA0 0 0 0 0) = Frame 0xA0 0 0 0 0
  /\ calls_of (loop true [raw_of 0 0 0 0 0; raw_of 0xA0 0 0 0 0] s_599_paddle)
     = reset_calls ++ [CsetButton 0 false; CsendReport]
  /\ wheelIdentified
       (state_of (loop true [raw_of 0 0 0 0 0; raw_of 0xA0 0 0 0 0] s_599_paddle))
     = true
  /\ diff_calls F599Btn (Frame 0xA0 0 0 0 0) (Frame 0xB0 0 0 0 0)
     = [CsetButton 0 false]
  /\ calls_of (loop true [raw_of 0 0 0 0 0; raw_of 0xA0 0 0 0 0]
                    (set_prevBytes (Frame 0xA0 0 0 0 0) s_599_paddle))
     = reset_calls ++ [CsendReport].
Proof. vm_compute. repeat split; reflexivity. Qed.

(** ** What a cycle can call *)

Section CallsOfACycle.

Variable P : call -> Prop.
Variable I : state -> Prop.
Hypothesis I_absent : forall f s, I s -> I (absent_state f s).
Hypothesis I_latched : forall f s, I s -> I (latched f s).
Hypothesis P_finish : forall s, I s -> Forall P (snd (finish s)).
Hypothesis P_reset : Forall P reset_calls.
Hypothesis P_delay : P (Cdelay 1000).

Lemma pending_reset_calls (s : state) : Forall P (pending_reset s).
Proof. unfold pending_reset. destruct (buttonsreset s); [constructor|exact P_reset]. Qed.

Lemma wait_wheel_calls (reads : list frame) :
  forall (s : state) (tr : list call),
    I s -> Forall P tr -> Forall P (calls_of (wait_wheel reads s tr)).
Proof.
  induction reads as [|raw reads IH]; intros s tr Hs Htr;
    destruct (unplugged s) eqn:Hu.
  - rewrite (wait_out _ _ Hu). cbn [calls_of].
    apply Forall_app. split; [exact Htr|apply pending_reset_calls].
  - rewrite (wait_done _ _ _ Hu). specialize (P_finish s Hs).
    destruct (finish s) as [s' t']. cbn [calls_of snd] in *.
    apply Forall_app. now split.
  - rewrite (wait_step _ _ _ _ Hu). apply IH; [now apply I_absent|].
    apply Forall_app. split; [exact Htr|].
    apply Forall_app. split; [apply pending_reset_calls|].
    destruct (recognized (read_frame raw)); repeat constructor. exact P_delay.
  - rewrite (wait_done _ _ _ Hu). specialize (P_finish s Hs).
    destruct (finish s) as [s' t']. cbn [calls_of snd] in *.
    apply Forall_app. now split.
Qed.

Lemma loop_calls (c : bool) (reads : list frame) (s : state) :
  I s -> Forall P (calls_of (loop c reads s)).
Proof.
  intros Hs. destruct c; [|constructor].
  destruct reads as [|raw reads]; [constructor|].
  rewrite loop_first. apply wait_wheel_calls; [now apply I_latched|constructor].
Qed.

End CallsOfACycle.

Lemma bit_calls_hat (tbl : list Z) (cur prev : frame) (i b : nat) :
  Forall hat_arg_ok (bit_calls tbl cur prev i b).
Proof.
  unfold bit_calls. destruct (_ =? _); [constructor|].
  destruct ((31 <=? _) && (_ <=? 34)) eqn:E.
  - apply andb_prop in E. destruct E as [E1 E2].
    apply Z.leb_le in E1, E2.
    destruct (negb _); repeat constructor; cbn; lia.
  - repeat constructor.
Qed.

Lemma diff_calls_hat (tbl : list Z) (cur prev : frame) :
  Forall hat_arg_ok (diff_calls tbl cur prev).
Proof.
  unfold diff_calls, byte_calls.
  apply Forall_flat_map, Forall_forall. intros i _.
  apply Forall_flat_map, Forall_forall. intros b _. apply bit_calls_hat.
Qed.

Lemma joy_calls_ok (s : state) : Forall call_ok (joy_calls s).
Proof.
  unfold joy_calls. destruct (_ && _); [|constructor].
  destruct (negb _); repeat constructor; cbn; lia.
Qed.

Lemma call_ok_hat (c : call) : call_ok c -> hat_arg_ok c.
Proof. destruct c; cbn; trivial. Qed.

Lemma finish_calls_hat (s : state) : Forall hat_arg_ok (snd (finish s)).
Proof.
  destruct (finish_spec s) as [v Hv]. rewrite Hv. cbn [snd].
  apply Forall_app. split.
  - destruct (wheelIdentified (who s)); [apply diff_calls_hat|constructor].
  - apply Forall_app. split; [|repeat constructor].
    eapply Forall_impl; [apply call_ok_hat|apply joy_calls_ok].
Qed.

Lemma convertHat_defined (a : Z) : convertHat a = None <-> ~ 0 <= a <= 3.
Proof.
  unfold convertHat.
  destruct (a =? 3) eqn:E3; [apply Z.eqb_eq in E3; split; [discriminate|lia]|].
  destruct (a =? 2) eqn:E2; [apply Z.eqb_eq in E2; split; [discriminate|lia]|].
  destruct (a =? 1) eqn:E1; [apply Z.eqb_eq in E1; split; [discriminate|lia]|].
  destruct (a =? 0) eqn:E0; [apply Z.eqb_eq in E0; split; [discriminate|lia]|].
  apply Z.eqb_neq in E3, E2, E1, E0. split; [lia|reflexivity].
Qed.

Lemma gamepad_trace_defined (cs : list call) :
  Forall hat_arg_ok cs -> exists ops, gamepad_trace cs = Some ops.
Proof.
  induction 1 as [|c cs Hc _ [ops IH]]; cbn [gamepad_trace]; [now eexists|].
  rewrite IH. destruct c; cbn [run_call]; try (eexists; reflexivity).
  destruct (convertHat hat) eqn:E; [eexists; reflexivity|].
  apply convertHat_defined in E. contradiction.
Qed.

(** C10. Whatever the state, the answer of [isConnected] and the bursts
    read, every call of [convertHat] that a call of [loop] makes has its
    argument among 0, 1, 2, 3; [convertHat] leaves [hatstate] unassigned
    exactly outside that range, so no call sends an unassigned value. *)
Theorem C10_convertHat_argument (c : bool) (reads : list frame) (s : state) :
  Forall hat_arg_ok (calls_of (loop c reads s))
  /\ (forall a, convertHat a = None <-> ~ 0 <= a <= 3)
  /\ exists ops, gamepad_trace (calls_of (loop c reads s)) = Some ops.
Proof.
  assert (H : Forall hat_arg_ok (calls_of (loop c reads s))).
  { apply (loop_calls hat_arg_ok (fun _ => True)); trivial.
    - intros s' _. apply finish_calls_hat.
    - repeat constructor.
    - exact Logic.I. }
  split; [exact H|]. split; [exact convertHat_defined|].
  now apply gamepad_trace_defined.
Qed.

(** ** Hat bits *)

Lemma bit_body_calls (i b : nat) (s : state) :
  snd (bit_body i b s) = bit_calls (bit2btn s) (currBytes s) (prevBytes s) i b.
Proof. destruct (bit_body_spec i b s) as [v Hv]. now rewrite Hv. Qed.

(** ** Unmapped bits and the range of button numbers *)

Lemma tables_entries (t : list Z) : known_table t -> Forall entry_ok t.
Proof.
  intros [H|[H|[H|H]]]; subst t; apply Forall_forall; intros e He;
    unfold entry_ok; cbn [In bit2btn0 F599Btn R383Btn F1Btn] in He;
    repeat (destruct He as [<-|He]; [lia|]); contradiction.
Qed.

Lemma nth_entry_ok (t : list Z) (n : nat) : Forall entry_ok t -> entry_ok (nth n t 0).
Proof.
  intros H. revert n. induction H as [|e t He _ IH]; intros [|n]; cbn [nth];
    try (unfold entry_ok; lia); auto.
Qed.

Lemma bit_calls_ok (tbl : list Z) (cur prev : frame) (i b : nat) :
  Forall entry_ok tbl -> Forall call_ok (bit_calls tbl cur prev i b).
Proof.
  intros Ht. pose proof (nth_entry_ok tbl (i * 8 + b) Ht) as He.
  unfold bit_calls. destruct (_ =? _); [constructor|].
  destruct ((31 <=? _) && (_ <=? 34)) eqn:E.
  - apply andb_prop in E. destruct E as [E1 E2]. apply Z.leb_le in E1, E2.
    destruct (negb _); repeat constructor; cbn; lia.
  - apply andb_false_iff in E. apply Forall_cons; [|constructor]. cbn.
    destruct He as [He|He]; [exact He|].
    destruct E as [E|E]; apply Z.leb_gt in E; lia.
Qed.

Lemma diff_calls_ok (tbl : list Z) (cur prev : frame) :
  Forall entry_ok tbl -> Forall call_ok (diff_calls tbl cur prev).
Proof.
  intros Ht. unfold diff_calls, byte_calls.
  apply Forall_flat_map, Forall_forall. intros i _.
  apply Forall_flat_map, Forall_forall. intros b _. now apply bit_calls_ok.
Qed.

Lemma who_known_table (s : state) :
  known_table (bit2btn s) -> known_table (bit2btn (who s)).
Proof.
  intros H. cbv beta delta [who identify ifelse when assign skip].
  repeat match goal with |- context [if ?c then _ else _] => destruct c end;
    cbn; unfold known_table; auto.
Qed.

Lemma finish_calls_ok (s : state) :
  known_table (bit2btn s) -> Forall call_ok (snd (finish s)).
Proof.
  intros H. destruct (finish_spec s) as [v Hv]. rewrite Hv. cbn [snd].
  apply Forall_app. split.
  - destruct (wheelIdentified (who s)); [|constructor].
    apply diff_calls_ok, tables_entries, who_known_table, H.
  - apply Forall_app. split; [apply joy_calls_ok|repeat constructor].
Qed.

Lemma reset_calls_ok : Forall call_ok reset_calls.
Proof.
  apply Forall_forall. intros c Hc. cbn in Hc.
  repeat (destruct Hc as [<-|Hc]; [cbn; lia || exact Logic.I|]). contradiction.
Qed.

Lemma gamepad_trace_in_range (cs : list call) :
  Forall call_ok cs ->
  exists ops, gamepad_trace cs = Some ops /\ Forall button_in_range ops.
Proof.
  induction 1 as [|c cs Hc _ [ops [IH1 IH2]]]; cbn [gamepad_trace].
  - eexists. split; [reflexivity|constructor].
  - rewrite IH1. destruct c; cbn [run_call call_ok] in *.
    + eexists. split; [reflexivity|]. constructor; [exact Logic.I|exact IH2].
    + eexists. split; [reflexivity|]. apply Forall_app. split; [|exact IH2].
      destruct buttonState; cbn; (constructor; [exact Hc|constructor]).
    + assert (E : hat = 0 \/ hat = 1 \/ hat = 2 \/ hat = 3) by lia.
      destruct E as [E|[E|[E|E]]]; subst hat; cbn;
        (eexists; split; [reflexivity|constructor; [exact Logic.I|exact IH2]]).
    + eexists. split; [reflexivity|]. constructor; [exact Logic.I|exact IH2].
    + eexists. split; [reflexivity|exact IH2].
Qed.

(** With the working array in its initial contents or holding one of the
    three tables, every button operation of a call of [loop] names -1 or a
    button 0 to 20. *)
Lemma cycle_buttons_in_range (c : bool) (reads : list frame) (s : state) :
  known_table (bit2btn s) ->
  exists ops,
    gamepad_trace (calls_of (loop c reads s)) = Some ops
    /\ Forall button_in_range ops.
Proof.
  intros Hs. apply gamepad_trace_in_range.
  apply (loop_calls call_ok (fun s => known_table (bit2btn s))); trivial.
  - intros s' H. now apply finish_calls_ok.
  - exact reset_calls_ok.
  - exact Logic.I.
Qed.

(** C1 as stated fails.  A 599xx wheel is identified and its stored frame is
    (0xA0,0,0,0,0); in the next frame bit 0 of byte 3 is set.  The entry of
    that bit is -1, and the cycle sends [press(-1)] to the gamepad.  So does
    the very first cycle with that wheel, twice: bits 7 and 5 of byte 0, the
    header, differ from the zeroed [prevBytes] and their entries are -1. *)
Lemma C1_counterexample :
  wheelIdentified s_599 = true
  /\ wheelID s_599 = 2
  /\ prevBytes s_599 = Frame 0xA0 0 0 0 0
  /\ read_frame (raw_of 0xA0 0 0 1 0) = Frame 0xA0 0 0 1 0
  /\ entry s_599 3 7 = -1
  /\ Z.land (byte_at (Frame 0xA0 0 0 1 0) 3) (pos_at 7) = 1
  /\ Z.land (byte_at (Frame 0xA0 0 0 0 0) 3) (pos_at 7) = 0
  /\ calls_of (loop true [raw_of 0xA0 0 0 1 0] s_599)
     = [CsetButton (-1) true; CsendReport]
  /\ gamepad_trace (calls_of (loop true [raw_of 0xA0 0 0 1 0] s_599))
     = Some [press (-1); sendReport]
  /\ entry s_599 0 0 = -1 /\ entry s_599 0 2 = -1
  /\ gamepad_trace (calls_of (loop true [raw_of 0xA0 0 0 0 0] init))
     = Some [press (-1); press (-1); sendReport].
Proof. vm_compute. repeat split; reflexivity. Qed.

(** ** Masks and bits *)

Lemma land_pow2 (x k : Z) :
  0 <= k -> Z.land x (2 ^ k) = if Z.testbit x k then 2 ^ k else 0.
Proof.
  intros Hk. apply Z.bits_inj'. intros n Hn.
  rewrite Z.land_spec, Z.pow2_bits_eqb by exact Hk.
  destruct (Z.testbit x k) eqn:E.
  - rewrite Z.pow2_bits_eqb by exact Hk.
    destruct (Z.eqb_spec k n) as [->|_]; [now rewrite E|apply andb_false_r].
  - rewrite Z.bits_0.
    destruct (Z.eqb_spec k n) as [->|_]; [now rewrite E|apply andb_false_r].
Qed.

Lemma pos_at_pow2 (b : nat) : (b < 8)%nat -> pos_at b = 2 ^ Z.of_nat (7 - b).
Proof.
  intros H. do 8 (destruct b as [|b]; [reflexivity|]). lia.
Qed.

Lemma mask_bit (f : frame) (i b : nat) :
  (b < 8)%nat ->
  Z.land (byte_at f i) (pos_at b) = if bit_at f i b then pos_at b else 0.
Proof.
  intros H. unfold bit_at. rewrite (pos_at_pow2 b H). apply land_pow2. lia.
Qed.

Lemma pos_at_nonzero (b : nat) : (b < 8)%nat -> pos_at b <> 0.
Proof.
  intros H. do 8 (destruct b as [|b]; [discriminate|]). lia.
Qed.

(** The operations one pass through [bit_body] sends are those of
    [transition_ops]. *)
Lemma bit_calls_ops (tbl : list Z) (cur prev : frame) (i b : nat) :
  (b < 8)%nat ->
  gamepad_trace (bit_calls tbl cur prev i b) = Some (transition_ops tbl cur prev i b).
Proof.
  intros Hb. unfold bit_calls, transition_ops.
  rewrite (mask_bit cur i b Hb), (mask_bit prev i b Hb).
  pose proof (pos_at_nonzero b Hb) as Hnz.
  assert (E0 : (pos_at b =? 0) = false) by now apply Z.eqb_neq.
  assert (E1 : (0 =? pos_at b) = false) by (apply Z.eqb_neq; congruence).
  destruct (bit_at prev i b), (bit_at cur i b);
    rewrite ?Z.eqb_refl, ?E0, ?E1; try reflexivity; cbn [negb Z.eqb];
    unfold active_op, inactive_op, is_hat_tag;
    destruct ((31 <=? nth (i * 8 + b) tbl 0) && (nth (i * 8 + b) tbl 0 <=? 34)) eqn:E;
    try reflexivity.
  apply andb_prop in E. destruct E as [E2 E3]. apply Z.leb_le in E2, E3.
  assert (E : nth (i * 8 + b) tbl 0 = 31 \/ nth (i * 8 + b) tbl 0 = 32
              \/ nth (i * 8 + b) tbl 0 = 33 \/ nth (i * 8 + b) tbl 0 = 34) by lia.
  destruct E as [E|[E|[E|E]]]; rewrite E; reflexivity.
Qed.

Lemma diff_calls_ops (tbl : list Z) (cur prev : frame) :
  gamepad_trace (diff_calls tbl cur prev) = Some (diff_ops tbl cur prev).
Proof.
  unfold diff_calls, diff_ops, byte_calls.
  apply gamepad_trace_flat_map. intros i _.
  apply gamepad_trace_flat_map. intros b Hb.
  apply bit_calls_ops. apply in_seq in Hb. lia.
Qed.

Lemma bit_calls_same (tbl : list Z) (f : frame) (i b : nat) :
  bit_calls tbl f f i b = [].
Proof. unfold bit_calls. now rewrite Z.eqb_refl. Qed.

Lemma flat_map_nil {A B : Type} (f : A -> list B) (l : list A) :
  (forall x, f x = []) -> flat_map f l = [].
Proof.
  intros H. induction l as [|x l IH]; cbn [flat_map]; [reflexivity|].
  now rewrite H, IH.
Qed.

Lemma diff_calls_same (tbl : list Z) (f : frame) : diff_calls tbl f f = [].
Proof.
  unfold diff_calls, byte_calls.
  apply flat_map_nil. intros i. apply flat_map_nil. intros b.
  apply bit_calls_same.
Qed.

Lemma joy_calls_ops (s : state) :
  wheelIdentified s = true ->
  gamepad_trace (joy_calls s)
  = Some (synthetic_ops (wheelID s) (currBytes s) (prevJoyBtnState s)).
Proof.
  intros H. unfold joy_calls, synthetic_ops. rewrite H. cbn [andb].
  destruct (wheelID s =? 3); [|reflexivity].
  destruct (eqb (joy_of (currBytes s)) (prevJoyBtnState s)); cbn [negb];
    [reflexivity|]. destruct (joy_of (currBytes s)); reflexivity.
Qed.

(** ** Reachable states *)

Lemma plugged_recognized (s : state) :
  synced s -> unplugged s = false -> recognized (currBytes s) = true.
Proof.
  intros (Hw & _ & _). unfold unplugged, recognized. rewrite Hw.
  destruct (header (currBytes s) =? 192), (header (currBytes s) =? 160),
    (header (currBytes s) =? 32); cbn; congruence.
Qed.

Lemma finish_consistent (s : state) :
  synced s -> unplugged s = false -> consistent (fst (finish s)).
Proof.
  intros Hsy Hu. pose proof (plugged_recognized s Hsy Hu) as Hrec.
  destruct Hsy as (Hw & H4 & H5).
  destruct (finish_spec s) as [v Hv]. rewrite Hv. cbn [fst].
  unfold consistent.
  cbn [wheelIdentified prevBytes wheelID prevJoyBtnState].
  intros Hid. split; [exact Hrec|]. split.
  - intros H3. rewrite Hid, H3. reflexivity.
  - intros H32 Hpat. destruct (wheelIdentified s) eqn:Hs.
    + rewrite (who_identified s Hs), Hw, H4, H5, H32.
      unfold r383_pattern in Hpat. rewrite Hpat. reflexivity.
    + rewrite (seeking_stays s Hs) in Hid by (rewrite Hw, H32; discriminate).
      congruence.
Qed.

Lemma wait_completed (reads : list frame) :
  forall (s : state) (tr : list call) (s' : state) (tr' : list call)
         (rest : list frame),
    synced s ->
    wait_wheel reads s tr = Completed s' tr' rest ->
    exists sm,
      synced sm /\ unplugged sm = false /\ bit2btn sm = bit2btn s
      /\ s' = fst (finish sm).
Proof.
  induction reads as [|raw reads IH]; intros s tr s' tr' rest Hsy H;
    destruct (unplugged s) eqn:Hu.
  - rewrite (wait_out _ _ Hu) in H. discriminate.
  - rewrite (wait_done _ _ _ Hu) in H. exists s.
    destruct (finish s). inversion H. auto.
  - rewrite (wait_step _ _ _ _ Hu) in H.
    apply IH in H; [exact H|]. repeat split.
  - rewrite (wait_done _ _ _ Hu) in H. exists s.
    destruct (finish s). inversion H. auto.
Qed.

Lemma reachable_consistent (s : state) : reachable s -> consistent s.
Proof.
  induction 1 as [|c reads s s' tr rest _ IH H].
  - intros H. discriminate.
  - destruct c; [|cbn in H; inversion H; subst; exact IH].
    destruct reads as [|raw reads]; [discriminate|].
    rewrite loop_first in H.
    apply wait_completed in H; [|repeat split].
    destruct H as (sm & Hsy & Hu & _ & ->). now apply finish_consistent.
Qed.

(** Between two calls of [loop] the working array holds its initial contents
    or one of the three tables. *)
Lemma reachable_known_table (s : state) : reachable s -> known_table (bit2btn s).
Proof.
  induction 1 as [|c reads s s' tr rest _ IH H].
  - left. reflexivity.
  - destruct c; [|cbn in H; inversion H; subst; exact IH].
    destruct reads as [|raw reads]; [discriminate|].
    rewrite loop_first in H.
    apply wait_completed in H; [|repeat split].
    destruct H as (sm & _ & _ & Ht & ->).
    destruct (finish_spec sm) as [v Hv]. rewrite Hv. cbn [fst bit2btn].
    apply who_known_table. rewrite Ht. exact IH.
Qed.

(** ** Change detection *)

(** C6. With a wheel identified, in a state the sketch can reach: a cycle
    whose frame equals the stored one calls nothing but [sendReport]; a cycle
    whose frame has a recognized header sends, byte by byte and bit 7 down to
    bit 0, nothing for a bit that holds, one operation for a bit that went
    from 0 to 1 (press of its button, or its direction for a hat tag) and one
    for a bit that went from 1 to 0 (release, or centered), then at most one
    operation for the synthetic button 13 of the R383 wheel, then the
    report. *)
Theorem C6_change_events (s : state) :
  reachable s ->
  wheelIdentified s = true ->
  (forall (raw : frame) (rest : list frame),
      read_frame raw = prevBytes s ->
      exists s',
        loop true (raw :: rest) s = Completed s' [CsendReport] rest
        /\ gamepad_trace [CsendReport] = Some [sendReport])
  /\ (forall (raw : frame) (rest : list frame),
         recognized (read_frame raw) = true ->
         exists s' tr,
           loop true (raw :: rest) s = Completed s' tr rest
           /\ wheelIdentified s' = true
           /\ gamepad_trace tr
              = Some (diff_ops (bit2btn s') (read_frame raw) (prevBytes s)
                        ++ synthetic_ops (wheelID s') (read_frame raw)
                                         (prevJoyBtnState s)
                        ++ [sendReport]))
  /\ (forall (i b : nat) (s1 : state),
         (b < 8)%nat ->
         gamepad_trace (snd (bit_body i b s1))
         = Some (match bit_at (prevBytes s1) i b, bit_at (currBytes s1) i b with
                 | false, true => [active_op (entry s1 i b)]
                 | true, false => [inactive_op (entry s1 i b)]
                 | _, _ => []
                 end)).
Proof.
  intros Hr Hid. pose proof (reachable_consistent s Hr Hid) as (Hrec & Hjoy & Hpat).
  assert (Hwho : forall f, wheelIdentified (who (latched f s)) = true).
  { intros f. rewrite (who_identified (latched f s) Hid).
    destruct (_ && _); [reflexivity|exact Hid]. }
  split; [|split].
  - intros raw rest Heq.
    rewrite loop_plugged by (rewrite Heq; exact Hrec).
    destruct (finish_spec (latched (read_frame raw) s)) as [v Hv]. rewrite Hv.
    eexists. split; [|reflexivity].
    cbn [currBytes prevBytes latched]. rewrite Hwho.
    rewrite Heq, diff_calls_same. cbn [app].
    replace (joy_calls (who (latched (prevBytes s) s))) with (@nil call);
      [reflexivity|].
    unfold joy_calls. rewrite Hwho. cbn [andb].
    destruct (wheelID (who (latched (prevBytes s) s)) =? 3) eqn:E3; [|reflexivity].
    apply Z.eqb_eq in E3.
    destruct (who_frame (latched (prevBytes s) s)) as (Hc & _ & _ & _ & _ & _ & Hpj & _).
    rewrite Hc, Hpj. cbn [currBytes prevJoyBtnState latched].
    assert (H3 : wheelID s = 3).
    { rewrite (who_identified (latched (prevBytes s) s) Hid) in E3.
      cbn [wheelbyte fourthbyte fifthbyte currBytes latched] in E3.
      destruct (header (prevBytes s) =? 32) eqn:E32; cbn [andb] in E3;
        [|exact E3].
      fold (r383_pattern (prevBytes s)) in E3.
      destruct (r383_pattern (prevBytes s)) eqn:Ep; [|exact E3].
      apply Hpat; [now apply Z.eqb_eq|reflexivity]. }
    rewrite (Hjoy H3), eqb_reflx. reflexivity.
  - intros raw rest Hraw. rewrite (loop_plugged raw rest s Hraw).
    destruct (finish_spec (latched (read_frame raw) s)) as [v Hv]. rewrite Hv.
    do 2 eexists. split; [reflexivity|].
    cbn [wheelIdentified wheelID bit2btn currBytes prevBytes latched].
    split; [apply Hwho|]. rewrite Hwho.
    rewrite !gamepad_trace_app, diff_calls_ops, joy_calls_ops by apply Hwho.
    destruct (who_frame (latched (read_frame raw) s)) as (Hc & _ & _ & _ & _ & _ & Hpj & _).
    rewrite Hc, Hpj. reflexivity.
  - intros i b s1 Hb. rewrite bit_body_calls. now apply bit_calls_ops.
Qed.

Lemma s_599_reachable : reachable s_599.
Proof.
  apply (reachable_loop true [raw_of 0xA0 0 0 0 0] init s_599
           [CsetButton (-1) true; CsetButton (-1) true; CsendReport] []).
  - exact reachable_init.
  - vm_compute. reflexivity.
Qed.

Lemma C6_change_events_witness :
  (exists s',
      loop true [raw_of 0xA0 0 0 0 0] s_599 = Completed s' [CsendReport] []
      /\ gamepad_trace [CsendReport] = Some [sendReport])
  /\ (exists s' tr,
         loop true [raw_of 0xB0 0 0x10 0 0] s_599 = Completed s' tr []
         /\ wheelIdentified s' = true
         /\ gamepad_trace tr
            = Some (diff_ops (bit2btn s') (Frame 0xB0 0 0x10 0 0) (Frame 0xA0 0 0 0 0)
                      ++ synthetic_ops (wheelID s') (Frame 0xB0 0 0x10 0 0) false
                      ++ [sendReport]))
  /\ gamepad_trace (snd (bit_body 0 3 (latched (Frame 0xB0 0 0x10 0 0) s_599)))
     = Some [press 0]
  /\ gamepad_trace (snd (bit_body 2 3 (latched (Frame 0xB0 0 0x10 0 0) s_599)))
     = Some [setHat1 1]
  /\ gamepad_trace (snd (bit_body 0 3 (latched (Frame 0xA0 0 0 0 0) s_599_paddle)))
     = Some [release 0].
Proof.
  destruct (C6_change_events s_599 s_599_reachable eq_refl) as (H1 & H2 & H3).
  split; [|split; [|split; [|split]]].
  - apply (H1 (raw_of 0xA0 0 0 0 0) []). reflexivity.
  - apply (H2 (raw_of 0xB0 0 0x10 0 0) []). reflexivity.
  - apply (H3 0%nat 3%nat (latched (Frame 0xB0 0 0x10 0 0) s_599)). lia.
  - apply (H3 2%nat 3%nat (latched (Frame 0xB0 0 0x10 0 0) s_599)). lia.
  - apply (H3 0%nat 3%nat (latched (Frame 0xA0 0 0 0 0) s_599_paddle)). lia.
Defined.

(** A cycle in which the left paddle and the upward direction of the hat
    become active. *)
Example paddle_and_hat_up :
  gamepad_trace (calls_of (loop true [raw_of 0xB0 0 0x10 0 0] s_599))
  = Some [press 0; setHat1 1; sendReport].
Proof. vm_compute. reflexivity. Qed.

(** ** Paddles *)

(** C8. In each of the three tables the bit that the head of the sketch
    lists as the left paddle holds the same entry, 0, and the bit listed as
    the right paddle holds 1: the buttons 1 and 2 of the official
    numbering. *)
Theorem C8_paddles_same_in_every_table (w : wheel) :
  nth (table_index (left_paddle w)) (table_of w) 0 = 0
  /\ nth (table_index (right_paddle w)) (table_of w) 0 = 1
  /\ published (nth (table_index (left_paddle w)) (table_of w) 0) = 1
  /\ published (nth (table_index (right_paddle w)) (table_of w) 0) = 2.
Proof. destruct w; repeat split; reflexivity. Qed.

(** ** Debug output *)

(** X1. For a byte, and with [Serial.print(data, BIN)] writing the binary
    numeral of [data], [printBinary] writes the eight bits of [data], bit 7
    first, and a space: "127" gives "01111111 ". *)
Theorem printBinary_eight_bits (print_BIN : Z -> list ascii) (data : Z) :
  0 <= data < 256 ->
  print_BIN data = binary_numeral data ->
  printBinary print_BIN data = bits8 data ++ [" "%char].
Proof.
  intros Hd Hp. unfold printBinary. rewrite Hp. clear Hp.
  destruct data as [|p|p]; [reflexivity| |lia].
  do 8 (try destruct p as [p|p|]); try (vm_compute; reflexivity); lia.
Qed.

Lemma printBinary_eight_bits_witness :
  printBinary binary_numeral 127
  = ["0"; "1"; "1"; "1"; "1"; "1"; "1"; "1"; " "]%char.
Proof.
  apply (printBinary_eight_bits binary_numeral 127); [lia|reflexivity].
Defined.

(** ** How a cycle returns *)

Lemma pending_reset_wait (s : state) : Forall wait_call (pending_reset s).
Proof.
  unfold pending_reset. destruct (buttonsreset s); [constructor|].
  apply Forall_forall. intros c Hc. left. exact Hc.
Qed.

(** The state [sm] in which the [while] is left, and the calls [pre] made
    inside it. *)
Lemma wait_wheel_returns (reads : list frame) :
  forall (s : state) (tr : list call) (s' : state) (tr' : list call)
         (rest : list frame),
    wait_wheel reads s tr = Completed s' tr' rest ->
    exists sm pre,
      s' = fst (finish sm) /\ tr' = tr ++ pre ++ snd (finish sm)
      /\ Forall wait_call pre
      /\ unplugged sm = false
      /\ wheelID sm = wheelID s /\ bit2btn sm = bit2btn s
      /\ prevBytes sm = prevBytes s
      /\ joyBtnState sm = joyBtnState s
      /\ prevJoyBtnState sm = prevJoyBtnState s
      /\ ((sm = s /\ pre = [])
          \/ (wheelIdentified sm = false /\ synced sm
              /\ exists raw, In raw reads /\ currBytes sm = read_frame raw)).
Proof.
  induction reads as [|raw reads IH]; intros s tr s' tr' rest H;
    destruct (unplugged s) eqn:Hu.
  - rewrite (wait_out _ _ Hu) in H. discriminate.
  - rewrite (wait_done _ _ _ Hu) in H. exists s, [].
    destruct (finish s) as [sf tf]. inversion H. subst. cbn [fst snd app].
    repeat split; auto.
  - rewrite (wait_step _ _ _ _ Hu) in H. apply IH in H.
    destruct H as (sm & pre & Hs' & Htr & Hpre & Hum & Hid & Htb & Hpb & Hj & Hpj & Hor).
    exists sm,
      (pending_reset s
         ++ (if recognized (read_frame raw) then [] else [Cdelay 1000]) ++ pre).
    split; [exact Hs'|]. split; [rewrite Htr, <- !app_assoc; reflexivity|].
    split.
    { apply Forall_app. split; [apply pending_reset_wait|].
      apply Forall_app. split; [|exact Hpre].
      destruct (recognized _); [constructor|].
      constructor; [now right|constructor]. }
    repeat (split; [assumption|]). right.
    destruct Hor as [[-> _]|(Hw & Hsy & raw' & Hin & Hc)].
    + split; [reflexivity|]. split; [repeat split|].
      exists raw. split; [now left|reflexivity].
    + split; [exact Hw|]. split; [exact Hsy|].
      exists raw'. split; [now right|exact Hc].
  - rewrite (wait_done _ _ _ Hu) in H. exists s, [].
    destruct (finish s) as [sf tf]. inversion H. subst. cbn [fst snd app].
    repeat split; auto.
Qed.

(** The same for a call of [loop] that the gamepad lets run. *)
Lemma loop_returns (reads : list frame) (s s' : state) (tr : list call)
      (rest : list frame) :
  loop true reads s = Completed s' tr rest ->
  exists sm pre,
    s' = fst (finish sm) /\ tr = pre ++ snd (finish sm)
    /\ Forall wait_call pre
    /\ unplugged sm = false /\ synced sm
    /\ (exists raw, In raw reads /\ currBytes sm = read_frame raw)
    /\ wheelID sm = wheelID s /\ bit2btn sm = bit2btn s
    /\ prevBytes sm = prevBytes s
    /\ joyBtnState sm = joyBtnState s
    /\ prevJoyBtnState sm = prevJoyBtnState s
    /\ ((wheelIdentified sm = wheelIdentified s /\ pre = [])
        \/ wheelIdentified sm = false).
Proof.
  destruct reads as [|raw reads]; [discriminate|].
  rewrite loop_first. intros H. apply wait_wheel_returns in H.
  destruct H as (sm & pre & Hs' & Htr & Hpre & Hum & Hid & Htb & Hpb & Hj & Hpj & Hor).
  exists sm, pre. split; [exact Hs'|]. split; [exact Htr|].
  split; [exact Hpre|]. split; [exact Hum|].
  destruct Hor as [[-> ->]|(Hw & Hsy & raw' & Hin & Hc)].
  - split; [repeat split|]. split; [exists raw; split; [now left|reflexivity]|].
    repeat (split; [reflexivity|]). left. split; reflexivity.
  - split; [exact Hsy|]. split; [exists raw'; split; [now right|exact Hc]|].
    repeat (split; [assumption|]). right. exact Hw.
Qed.

(** The calls of a call of [loop] that did not return. *)
Lemma wait_wheel_waits (reads : list frame) :
  forall (s : state) (tr : list call) (s' : state) (tr' : list call),
    wait_wheel reads s tr = Waiting s' tr' ->
    exists pre, tr' = tr ++ pre /\ Forall wait_call pre
                /\ wheelIdentified s' = false.
Proof.
  induction reads as [|raw reads IH]; intros s tr s' tr' H;
    destruct (unplugged s) eqn:Hu.
  - rewrite (wait_out _ _ Hu) in H. inversion H. subst.
    exists (pending_reset s). split; [reflexivity|].
    split; [apply pending_reset_wait|reflexivity].
  - rewrite (wait_done _ _ _ Hu) in H. destruct (finish s). discriminate.
  - rewrite (wait_step _ _ _ _ Hu) in H. apply IH in H.
    destruct H as (pre & Htr & Hpre & Hw).
    exists (pending_reset s
              ++ (if recognized (read_frame raw) then [] else [Cdelay 1000]) ++ pre).
    split; [rewrite Htr, <- !app_assoc; reflexivity|]. split; [|exact Hw].
    apply Forall_app. split; [apply pending_reset_wait|].
    apply Forall_app. split; [|exact Hpre].
    destruct (recognized _); [constructor|].
    constructor; [now right|constructor].
  - rewrite (wait_done _ _ _ Hu) in H. destruct (finish s). discriminate.
Qed.

(** X2. A call of [loop] returns at the first burst whose header is 192,
    160 or 32: it has then read the bursts up to that one and no further,
    and that frame is both the current and the stored one.  With no such
    burst among those it is given, it has not returned. *)
Theorem loop_returns_at_first_recognized (s : state) :
  (forall (pre : list frame) (r : frame) (rest : list frame),
      Forall (fun x => recognized (read_frame x) = false) pre ->
      recognized (read_frame r) = true ->
      exists s' tr,
        loop true (pre ++ r :: rest) s = Completed s' tr rest
        /\ currBytes s' = read_frame r /\ prevBytes s' = read_frame r)
  /\ (forall reads : list frame,
         Forall (fun x => recognized (read_frame x) = false) reads ->
         exists s' tr, loop true reads s = Waiting s' tr).
Proof.
  split.
  - intros pre r rest Hpre Hr. destruct Hpre as [|raw0 raws H0 Hall].
    + cbn [app]. rewrite (loop_plugged r rest s Hr).
      destruct (finish_spec (latched (read_frame r) s)) as [v Hv]. rewrite Hv.
      do 2 eexists. split; [reflexivity|]. split; reflexivity.
    + cbn [app]. rewrite loop_first, (wait_absent r rest raws Hr Hall).
      2: rewrite unplugged_latched, H0; reflexivity.
      destruct (finish_spec (absent_state (read_frame r) (latched (read_frame raw0) s)))
        as [v Hv]. rewrite Hv.
      do 2 eexists. split; [reflexivity|]. split; reflexivity.
  - intros reads Hall. destruct Hall as [|raw0 raws H0 Hall].
    + do 2 eexists. reflexivity.
    + rewrite loop_first.
      destruct (wait_starved raws Hall (latched (read_frame raw0) s) [])
        as [s' Hs']; [rewrite unplugged_latched, H0; reflexivity|].
      do 2 eexists. exact Hs'.
Qed.

Lemma loop_returns_at_first_recognized_witness :
  (exists s' tr,
      loop true ([raw_of 0 0 0 0 0; raw_of 0xE0 1 2 3 4]
                   ++ raw_of 0xC0 5 6 7 8 :: [raw_of 0 0 0 0 0]) s_599_paddle
      = Completed s' tr [raw_of 0 0 0 0 0]
      /\ currBytes s' = Frame 0xC0 5 6 7 8 /\ prevBytes s' = Frame 0xC0 5 6 7 8)
  /\ exists s' tr,
       loop true [raw_of 0 0 0 0 0; raw_of 0xE0 1 2 3 4] s_599_paddle = Waiting s' tr.
Proof.
  destruct (loop_returns_at_first_recognized s_599_paddle) as [H1 H2]. split.
  - apply (H1 [raw_of 0 0 0 0 0; raw_of 0xE0 1 2 3 4] (raw_of 0xC0 5 6 7 8)
              [raw_of 0 0 0 0 0]).
    + repeat constructor.
    + reflexivity.
  - apply (H2 [raw_of 0 0 0 0 0; raw_of 0xE0 1 2 3 4]). repeat constructor.
Defined.

(** ** The report *)

Lemma bit_calls_no_report (tbl : list Z) (cur prev : frame) (i b : nat) :
  ~ In CsendReport (bit_calls tbl cur prev i b).
Proof.
  unfold bit_calls. destruct (_ =? _); [intros []|].
  destruct ((31 <=? _) && (_ <=? 34)); [destruct (negb _)|];
    intros [H|[]]; discriminate.
Qed.

Lemma diff_calls_no_report (tbl : list Z) (cur prev : frame) :
  ~ In CsendReport (diff_calls tbl cur prev).
Proof.
  unfold diff_calls, byte_calls. intros H.
  apply in_flat_map in H. destruct H as (i & _ & H).
  apply in_flat_map in H. destruct H as (b & _ & H).
  exact (bit_calls_no_report _ _ _ _ _ H).
Qed.

Lemma joy_calls_no_report (s : state) : ~ In CsendReport (joy_calls s).
Proof.
  unfold joy_calls. destruct (_ && _); [|intros []].
  destruct (negb _); [intros [H|[]]; discriminate|intros []].
Qed.

Lemma wait_calls_no_report (pre : list call) :
  Forall wait_call pre -> ~ In CsendReport pre.
Proof.
  intros H Hin. rewrite Forall_forall in H. destruct (H _ Hin) as [Hr|Hd];
    [|discriminate].
  cbn in Hr. repeat (destruct Hr as [Hr|Hr]; [discriminate|]). exact Hr.
Qed.

(** X3. A call of [loop] that returns, with the gamepad connected, calls
    [sendReport] once, as its last call; a call that has not returned has not
    called it. *)
Theorem one_report_per_cycle (reads : list frame) (s : state) :
  match loop true reads s with
  | Completed _ tr _ =>
      exists tr0, tr = tr0 ++ [CsendReport] /\ ~ In CsendReport tr0
  | Waiting _ tr => ~ In CsendReport tr
  end.
Proof.
  destruct (loop true reads s) as [s' tr rest|s' tr] eqn:E.
  - apply loop_returns in E.
    destruct E as (sm & pre & _ & Htr & Hpre & _).
    destruct (finish_spec sm) as [v Hv]. rewrite Hv in Htr. cbn [snd] in Htr.
    exists (pre ++ (if wheelIdentified (who sm)
                    then diff_calls (bit2btn (who sm)) (currBytes sm) (prevBytes sm)
                    else [])
                ++ joy_calls (who sm)).
    split; [rewrite Htr, <- !app_assoc; reflexivity|].
    intros Hin. apply in_app_or in Hin. destruct Hin as [Hin|Hin].
    + exact (wait_calls_no_report pre Hpre Hin).
    + apply in_app_or in Hin. destruct Hin as [Hin|Hin].
      * destruct (wheelIdentified (who sm)); [|exact Hin].
        exact (diff_calls_no_report _ _ _ Hin).
      * exact (joy_calls_no_report _ Hin).
  - destruct reads as [|raw reads]; [inversion E; intros []|].
    rewrite loop_first in E. apply wait_wheel_waits in E.
    destruct E as (pre & -> & Hpre & _). cbn [app].
    now apply wait_calls_no_report.
Qed.

(** ** The state a cycle leaves *)

Lemma completed_cycle_state
      (reads : list frame) (s s' : state) (tr : list call) (rest : list frame) :
  loop true reads s = Completed s' tr rest ->
  prevBytes s' = currBytes s'
  /\ (exists raw, In raw reads /\ currBytes s' = read_frame raw)
  /\ recognized (currBytes s') = true
  /\ synced s'
  /\ prevJoyBtnState s' = joyBtnState s'.
Proof.
  intros H. apply loop_returns in H.
  destruct H as (sm & pre & -> & _ & _ & Hu & Hsy & Hraw & _).
  pose proof (plugged_recognized sm Hsy Hu) as Hrec.
  destruct (finish_spec sm) as [v Hv]. rewrite Hv. cbn [fst].
  unfold synced.
  cbn [currBytes prevBytes wheelbyte fourthbyte fifthbyte joyBtnState prevJoyBtnState].
  repeat split; try assumption; apply Hsy.
Qed.

(** X4. When a call of [loop] returns, with the gamepad connected, the
    stored frame is the current frame, which is one of the bursts read and
    has a header among 192, 160, 32; the three masked values are those of
    that frame, and the stored state of the synthetic button is the current
    one. *)
Theorem cycle_stores_last_frame
        (reads : list frame) (s s' : state) (tr : list call) (rest : list frame) :
  loop true reads s = Completed s' tr rest ->
  prevBytes s' = currBytes s'
  /\ (exists raw, In raw reads /\ currBytes s' = read_frame raw)
  /\ recognized (currBytes s') = true
  /\ synced s'
  /\ prevJoyBtnState s' = joyBtnState s'.
Proof. apply completed_cycle_state. Qed.

Lemma cycle_stores_last_frame_witness :
  prevBytes s_599_paddle = currBytes s_599_paddle
  /\ (exists raw, In raw [raw_of 0xB0 0 0 0 0]
                  /\ currBytes s_599_paddle = read_frame raw)
  /\ recognized (currBytes s_599_paddle) = true
  /\ synced s_599_paddle
  /\ prevJoyBtnState s_599_paddle = joyBtnState s_599_paddle.
Proof.
  apply (cycle_stores_last_frame [raw_of 0xB0 0 0 0 0] s_599 s_599_paddle
           [CsetButton 0 true; CsendReport] []).
  vm_compute. reflexivity.
Defined.

(** ** Which wheel *)

Lemma who_coherent (s : state) : coherent s -> coherent (who s).
Proof.
  intros H. destruct (wheelIdentified s) eqn:Hs.
  - rewrite (who_identified s Hs). destruct (_ && _); [|exact H].
    right. right. split; reflexivity.
  - rewrite (who_seeking s Hs). destruct (_ && _); [|exact H].
    right. left. split; reflexivity.
Qed.

Lemma finish_coherent (s : state) : coherent s -> coherent (fst (finish s)).
Proof.
  intros H. apply who_coherent in H.
  destruct (finish_spec s) as [v Hv]. rewrite Hv. cbn [fst].
  unfold coherent in *. cbn [wheelID bit2btn wheelIdentified]. exact H.
Qed.

Lemma reachable_coherent (s : state) : reachable s -> coherent s.
Proof.
  induction 1 as [|c reads s s' tr rest _ IH H].
  - left. repeat split.
  - destruct c; [|cbn in H; inversion H; subst; exact IH].
    apply loop_returns in H.
    destruct H as (sm & pre & -> & _ & _ & _ & _ & _ & Hid & Htb & _ & _ & _ & Hor).
    apply finish_coherent. unfold coherent in *. rewrite Hid, Htb.
    destruct IH as [(H0 & Ht & Hw)|IH]; [|right; exact IH].
    left. repeat split; try assumption.
    destruct Hor as [[Hsame _]|Hf]; congruence.
Qed.

(** X5. Between two calls of [loop], [wheelID] is 0, 2 or 3 and the working
    array holds the matching contents: all -1 with no wheel identified yet,
    the 599xx table, or the R383 table.  [wheelID] is never 1 and the F1
    table is never loaded; an identified wheel is the 599xx or the R383. *)
Theorem wheelID_and_table_agree (s : state) :
  reachable s ->
  coherent s
  /\ wheelID s <> 1
  /\ bit2btn s <> F1Btn
  /\ (wheelIdentified s = true -> wheelID s = 2 \/ wheelID s = 3).
Proof.
  intros H. pose proof (reachable_coherent s H) as Hc. split; [exact Hc|].
  destruct Hc as [(H0 & Ht & Hw)|[(H2 & Ht)|(H3 & Ht)]]; rewrite Ht.
  - repeat split; [lia|discriminate|congruence].
  - repeat split; [lia|discriminate|auto].
  - repeat split; [lia|discriminate|auto].
Qed.

Lemma wheelID_and_table_agree_witness :
  coherent s_599_paddle
  /\ wheelID s_599_paddle <> 1
  /\ bit2btn s_599_paddle <> F1Btn
  /\ (wheelIdentified s_599_paddle = true ->
      wheelID s_599_paddle = 2 \/ wheelID s_599_paddle = 3).
Proof.
  apply (wheelID_and_table_agree s_599_paddle).
  apply (reachable_loop true [raw_of 0xB0 0 0 0 0] s_599 s_599_paddle
           [CsetButton 0 true; CsendReport] []).
  - exact s_599_reachable.
  - vm_compute. reflexivity.
Defined.

(** X6. With a wheel identified, a cycle whose first frame has a recognized
    header keeps a wheel identified.  The R383 stays the R383 whatever the
    frame; the 599xx becomes the R383 on a frame with header 32 and the R383
    pattern, and stays the 599xx on every other frame. *)
Theorem identity_kept_while_plugged (s : state) (raw : frame) (rest : list frame) :
  reachable s ->
  wheelIdentified s = true ->
  recognized (read_frame raw) = true ->
  exists s' tr,
    loop true (raw :: rest) s = Completed s' tr rest
    /\ wheelIdentified s' = true
    /\ (wheelID s = 3 -> wheelID s' = 3 /\ bit2btn s' = R383Btn)
    /\ (wheelID s = 2 ->
        if (header (read_frame raw) =? 32) && r383_pattern (read_frame raw)
        then wheelID s' = 3 /\ bit2btn s' = R383Btn
        else wheelID s' = 2 /\ bit2btn s' = F599Btn).
Proof.
  intros Hr Hid Hraw. pose proof (reachable_coherent s Hr) as Hc.
  rewrite (loop_plugged raw rest s Hraw).
  destruct (finish_spec (latched (read_frame raw) s)) as [v Hv]. rewrite Hv.
  do 2 eexists. split; [reflexivity|].
  cbn [wheelIdentified wheelID bit2btn].
  rewrite (who_identified (latched (read_frame raw) s) Hid).
  cbn [wheelbyte fourthbyte fifthbyte currBytes latched].
  fold (aux4 (read_frame raw)) (aux5 (read_frame raw)).
  fold (r383_pattern (read_frame raw)).
  destruct ((header (read_frame raw) =? 32) && r383_pattern (read_frame raw));
    cbn [wheelIdentified wheelID bit2btn identified_as latched].
  - repeat split; auto.
  - split; [exact Hid|].
    destruct Hc as [(H0 & _ & Hw)|[(H2 & Ht)|(H3 & Ht)]];
      [congruence| |]; split; intros E; try lia; split; assumption.
Qed.

Lemma identity_kept_while_plugged_witness :
  exists s' tr,
    loop true [raw_of 0x20 0 0 0x80 0] s_599 = Completed s' tr []
    /\ wheelIdentified s' = true
    /\ (wheelID s_599 = 3 -> wheelID s' = 3 /\ bit2btn s' = R383Btn)
    /\ (wheelID s_599 = 2 -> wheelID s' = 3 /\ bit2btn s' = R383Btn).
Proof.
  apply (identity_kept_while_plugged s_599 (raw_of 0x20 0 0 0x80 0) []).
  - exact s_599_reachable.
  - reflexivity.
  - reflexivity.
Defined.

(** ** No wheel, no press *)

Lemma gamepad_trace_Forall (Pc : call -> Prop) (Po : gamepad_op -> Prop)
      (cs : list call) :
  (forall c, Pc c -> exists o, run_call c = Some o /\ Forall Po o) ->
  Forall Pc cs ->
  exists ops, gamepad_trace cs = Some ops /\ Forall Po ops.
Proof.
  intros Hrun. induction 1 as [|c cs Hc _ (ops & IH1 & IH2)]; cbn [gamepad_trace].
  - exists []. split; [reflexivity|constructor].
  - destruct (Hrun c Hc) as (o & Ho & HPo). rewrite Ho, IH1.
    exists (o ++ ops). split; [reflexivity|]. apply Forall_app. now split.
Qed.

Lemma wait_call_releasing (c : call) :
  wait_call c -> exists o, run_call c = Some o /\ Forall releasing o.
Proof.
  intros [H|E]; [|subst c].
  - cbn in H.
    destruct H as [<-|H];
      [eexists; split; [reflexivity|]; repeat constructor|].
    repeat (destruct H as [<-|H];
            [eexists; split; [reflexivity|];
             constructor; [right; left; eexists; reflexivity|constructor]|]).
    contradiction.
  - eexists. split; [reflexivity|constructor].
Qed.

(** X7. A cycle that ends with no wheel identified has pressed no button
    and set no direction of the hat: every operation it sent centers the
    hat, releases a button or sends the report. *)
Theorem unidentified_cycle_presses_nothing
        (reads : list frame) (s s' : state) (tr : list call) (rest : list frame) :
  loop true reads s = Completed s' tr rest ->
  wheelIdentified s' = false ->
  exists ops, gamepad_trace tr = Some ops /\ Forall releasing ops.
Proof.
  intros H Hw. apply loop_returns in H.
  destruct H as (sm & pre & -> & -> & Hpre & _).
  destruct (finish_spec sm) as [v Hv]. rewrite Hv in *. cbn [fst snd] in *.
  cbn [wheelIdentified] in Hw. unfold joy_calls. rewrite Hw. cbn [andb app].
  apply (gamepad_trace_Forall (fun c => wait_call c \/ c = CsendReport)).
  - intros c [Hc| ->]; [now apply wait_call_releasing|].
    eexists. split; [reflexivity|]. constructor; [|constructor].
    right. right. reflexivity.
  - apply Forall_app. split.
    + eapply Forall_impl; [|exact Hpre]. intros c Hc. now left.
    + constructor; [now right|constructor].
Qed.

Lemma unidentified_cycle_presses_nothing_witness :
  exists ops,
    gamepad_trace
      (calls_of (loop true [raw_of 0 0 0 0 0; raw_of 0x20 0xFF 0xFF 0 0] s_599_paddle))
    = Some ops
    /\ Forall releasing ops.
Proof.
  apply (unidentified_cycle_presses_nothing
           [raw_of 0 0 0 0 0; raw_of 0x20 0xFF 0xFF 0 0] s_599_paddle
           (state_of (loop true [raw_of 0 0 0 0 0; raw_of 0x20 0xFF 0xFF 0 0]
                           s_599_paddle))
           (calls_of (loop true [raw_of 0 0 0 0 0; raw_of 0x20 0xFF 0xFF 0 0]
                           s_599_paddle))
           []).
  - vm_compute. reflexivity.
  - vm_compute. reflexivity.
Defined.

(** ** Bytes *)

Lemma invert_is_byte (x : Z) : is_byte (invert x).
Proof.
  unfold is_byte, invert.
  assert (E : Z.land (Z.lnot x) 255 = Z.lnot x mod 256)
    by (change 255 with (Z.ones 8); now rewrite Z.land_ones by lia).
  rewrite E. pose proof (Z.mod_pos_bound (Z.lnot x) 256). lia.
Qed.

Lemma read_frame_bytes (raw : frame) : byte_frame (read_frame raw).
Proof. repeat split; apply invert_is_byte. Qed.

Lemma land_byte_bound (x m : Z) :
  is_byte x -> In m [224; 32; 15] -> 0 <= Z.land x m /\ Z.land x m <= m.
Proof.
  unfold is_byte. intros Hx Hm.
  destruct x as [|p|p]; [|do 8 (try destruct p as [p|p|])|]; try lia;
    cbn in Hm; destruct Hm as [<-|[<-|[<-|[]]]];
    vm_compute; split; discriminate.
Qed.

(** X8. Whatever the wheel answers, between two calls of [loop] the current
    and the stored frame hold bytes, 0 to 255, and the three masked values
    are within their masks. *)
Theorem frames_hold_bytes (s : state) :
  reachable s ->
  byte_frame (currBytes s) /\ byte_frame (prevBytes s)
  /\ 0 <= wheelbyte s <= 224 /\ 0 <= fourthbyte s <= 32 /\ 0 <= fifthbyte s <= 15.
Proof.
  induction 1 as [|c reads s s' tr rest _ IH H].
  - vm_compute. repeat split; discriminate.
  - destruct c; [|cbn in H; inversion H; subst; exact IH].
    apply completed_cycle_state in H.
    destruct H as (Hp & (raw & _ & Hc) & _ & (Hw & H4 & H5) & _).
    rewrite Hp, Hw, H4, H5, Hc.
    pose proof (read_frame_bytes raw) as Hb.
    split; [exact Hb|]. split; [exact Hb|].
    destruct Hb as (B0 & _ & _ & B3 & B4).
    unfold header, aux4, aux5.
    repeat split; apply land_byte_bound; cbn; auto.
Qed.

Lemma frames_hold_bytes_witness :
  byte_frame (currBytes s_599) /\ byte_frame (prevBytes s_599)
  /\ 0 <= wheelbyte s_599 <= 224 /\ 0 <= fourthbyte s_599 <= 32
  /\ 0 <= fifthbyte s_599 <= 15.
Proof. apply (frames_hold_bytes s_599). exact s_599_reachable. Defined.

(** ** One operation per button *)

Lemma touch_count_app (b : Z) (x y : list gamepad_op) :
  touch_count b (x ++ y) = (touch_count b x + touch_count b y)%nat.
Proof. unfold touch_count. now rewrite filter_app, length_app. Qed.

Lemma touch_count_flat_map {A : Type} (b : Z) (f : A -> list gamepad_op)
      (g : A -> nat) (l : list A) :
  (forall x, (touch_count b (f x) <= g x)%nat) ->
  (touch_count b (flat_map f l) <= list_sum (map g l))%nat.
Proof.
  intros H. induction l as [|x l IH]; cbn [flat_map map].
  - apply le_n.
  - change (list_sum (g x :: map g l)) with (g x + list_sum (map g l))%nat.
    rewrite touch_count_app. specialize (H x). lia.
Qed.

Lemma touch_count_transition (b : Z) (tbl : list Z) (cur prev : frame) (i k : nat) :
  (touch_count b (transition_ops tbl cur prev i k)
   <= if (nth (i * 8 + k) tbl 0%Z =? b)%Z then 1 else 0)%nat.
Proof.
  unfold transition_ops, active_op, inactive_op, touch_count.
  destruct (bit_at prev i k), (bit_at cur i k); cbn [filter length]; try lia;
    destruct (is_hat_tag _); cbn [filter touches length]; try lia;
    destruct (nth (i * 8 + k) tbl 0 =? b); cbn [length]; lia.
Qed.

Lemma touch_count_diff (b : Z) (tbl : list Z) (cur prev : frame) :
  (touch_count b (diff_ops tbl cur prev) <= hits tbl b)%nat.
Proof.
  unfold diff_ops, hits.
  apply touch_count_flat_map. intros i.
  apply touch_count_flat_map. intros k. apply touch_count_transition.
Qed.

Lemma touch_count_synthetic (b id : Z) (cur : frame) (before : bool) :
  (touch_count b (synthetic_ops id cur before)
   <= if ((id =? 3) && (13 =? b))%Z then 1 else 0)%nat.
Proof.
  unfold synthetic_ops, touch_count. destruct (id =? 3); cbn [andb filter length];
    [|lia].
  destruct (eqb _ _); cbn [filter length]; [lia|].
  destruct (joy_of cur); cbn [filter touches length];
    destruct (13 =? b); cbn [length]; lia.
Qed.

Lemma hits_tables (b : Z) :
  0 <= b <= 20 ->
  (hits F599Btn b <= 1)%nat /\ (hits R383Btn b <= 1)%nat
  /\ hits F599Btn 13 = 0%nat /\ hits R383Btn 13 = 0%nat.
Proof.
  intros Hb. destruct b as [|p|p]; [|do 5 (try destruct p as [p|p|])|];
    try lia; vm_compute; repeat split; lia.
Qed.

(** X9. In a cycle whose first frame has a recognized header, each of the
    buttons 0 to 20 is pressed or released at most once: no two bits of the
    table in use hold the same button, and the synthetic button 13 of the
    R383 is on no bit of its table. *)
Theorem one_operation_per_button
        (s : state) (raw : frame) (rest : list frame) (b : Z) :
  reachable s ->
  recognized (read_frame raw) = true ->
  0 <= b <= 20 ->
  exists s' tr ops,
    loop true (raw :: rest) s = Completed s' tr rest
    /\ gamepad_trace tr = Some ops
    /\ (touch_count b ops <= 1)%nat.
Proof.
  intros Hr Hraw Hb. pose proof (reachable_coherent s Hr) as Hc.
  assert (Hcw : coherent (who (latched (read_frame raw) s)))
    by (apply who_coherent; exact Hc).
  rewrite (loop_plugged raw rest s Hraw).
  destruct (finish_spec (latched (read_frame raw) s)) as [v Hv]. rewrite Hv.
  destruct (wheelIdentified (who (latched (read_frame raw) s))) eqn:Hw.
  - do 3 eexists. split; [reflexivity|]. split.
    + rewrite !gamepad_trace_app, diff_calls_ops, joy_calls_ops by exact Hw.
      reflexivity.
    + rewrite 2!touch_count_app.
      pose proof (touch_count_diff b (bit2btn (who (latched (read_frame raw) s)))
                    (currBytes (latched (read_frame raw) s))
                    (prevBytes (latched (read_frame raw) s))) as Hd.
      pose proof (touch_count_synthetic b (wheelID (who (latched (read_frame raw) s)))
                    (currBytes (who (latched (read_frame raw) s)))
                    (prevJoyBtnState (who (latched (read_frame raw) s)))) as Hj.
      destruct (hits_tables b Hb) as (H599 & H383 & _ & H13).
      change (touch_count b ([sendReport] ++ [])) with 0%nat.
      destruct Hcw as [(_ & _ & Hf)|[(H2 & Ht)|(H3 & Ht)]]; [congruence| |].
      * rewrite Ht in *. rewrite H2 in *.
        change (2 =? 3) with false in Hj. cbn [andb] in Hj. lia.
      * rewrite Ht in *. rewrite H3 in *.
        change (3 =? 3) with true in Hj. cbn [andb] in Hj.
        destruct (Z.eqb_spec 13 b) as [<-|_]; [rewrite H13 in Hd|]; lia.
  - do 3 eexists. split; [reflexivity|]. unfold joy_calls. rewrite Hw.
    cbn [andb app]. split; [reflexivity|]. cbn. lia.
Qed.

Lemma one_operation_per_button_witness :
  exists s' tr ops,
    loop true [raw_of 0xB0 0 0x10 0 0] s_599 = Completed s' tr []
    /\ gamepad_trace tr = Some ops
    /\ (touch_count 0 ops <= 1)%nat.
Proof.
  apply (one_operation_per_button s_599 (raw_of 0xB0 0 0x10 0 0) [] 0).
  - exact s_599_reachable.
  - reflexivity.
  - lia.
Defined.

(** ** The scan in the trace of a cycle *)

Lemma transition_ops_changed (tbl : list Z) (cur prev : frame) (i b : nat) :
  (b < 8)%nat ->
  masked cur i b <> masked prev i b ->
  transition_ops tbl cur prev i b
  = [if masked cur i b =? 0
     then inactive_op (nth (i * 8 + b) tbl 0)
     else active_op (nth (i * 8 + b) tbl 0)].
Proof.
  unfold masked, transition_ops. intros Hb.
  rewrite (mask_bit cur i b Hb), (mask_bit prev i b Hb).
  pose proof (pos_at_nonzero b Hb) as Hnz.
  assert (E0 : (pos_at b =? 0) = false) by now apply Z.eqb_neq.
  destruct (bit_at prev i b), (bit_at cur i b); intros Hch;
    try congruence; rewrite ?E0; reflexivity.
Qed.

Lemma transition_ops_in (tbl : list Z) (cur prev : frame) (i b : nat)
      (o : gamepad_op) :
  (b < 8)%nat ->
  In o (transition_ops tbl cur prev i b) ->
  masked cur i b <> masked prev i b
  /\ o = if masked cur i b =? 0
         then inactive_op (nth (i * 8 + b) tbl 0)
         else active_op (nth (i * 8 + b) tbl 0).
Proof.
  unfold masked, transition_ops. intros Hb.
  rewrite (mask_bit cur i b Hb), (mask_bit prev i b Hb).
  pose proof (pos_at_nonzero b Hb) as Hnz.
  assert (E0 : (pos_at b =? 0) = false) by now apply Z.eqb_neq.
  destruct (bit_at prev i b), (bit_at cur i b); cbn [In]; intros Hin;
    try contradiction; destruct Hin as [<-|[]]; rewrite ?E0;
    (split; [congruence|reflexivity]).
Qed.

Lemma in_diff_ops (tbl : list Z) (cur prev : frame) (i b : nat) (o : gamepad_op) :
  (i < 4)%nat -> (b < 8)%nat ->
  In o (transition_ops tbl cur prev i b) -> In o (diff_ops tbl cur prev).
Proof.
  intros Hi Hb Ho. unfold diff_ops.
  apply in_flat_map. exists i. split; [apply in_seq; lia|].
  apply in_flat_map. exists b. split; [apply in_seq; lia|exact Ho].
Qed.

Lemma diff_ops_in (tbl : list Z) (cur prev : frame) (o : gamepad_op) :
  In o (diff_ops tbl cur prev) ->
  exists i b, (i < 4)%nat /\ (b < 8)%nat /\ In o (transition_ops tbl cur prev i b).
Proof.
  unfold diff_ops. intros H.
  apply in_flat_map in H. destruct H as (i & Hi & H).
  apply in_flat_map in H. destruct H as (b & Hb & H).
  apply in_seq in Hi, Hb. exists i, b. repeat split; [lia|lia|exact H].
Qed.

Lemma in_diff_calls (tbl : list Z) (cur prev : frame) (i b : nat) (c : call) :
  (i < 4)%nat -> (b < 8)%nat ->
  In c (bit_calls tbl cur prev i b) -> In c (diff_calls tbl cur prev).
Proof.
  intros Hi Hb Hc. unfold diff_calls, byte_calls.
  apply in_flat_map. exists i. split; [apply in_seq; lia|].
  apply in_flat_map. exists b. split; [apply in_seq; lia|exact Hc].
Qed.

(** A call of [loop] that returns with a wheel identified has scanned the
    frame it read last against the frame stored when it was called, through
    the table it ends with: its calls are those made inside the [while],
    those of the scan, and what follows the scan. *)
Lemma scan_in_trace
      (reads : list frame) (s s' : state) (tr : list call) (rest : list frame) :
  loop true reads s = Completed s' tr rest ->
  wheelIdentified s' = true ->
  exists pre post before,
    tr = pre ++ diff_calls (bit2btn s') (currBytes s') (prevBytes s) ++ post
    /\ Forall wait_call pre
    /\ gamepad_trace pre = Some before
    /\ Forall releasing before
    /\ gamepad_trace tr
       = Some (before
                 ++ diff_ops (bit2btn s') (currBytes s') (prevBytes s)
                 ++ synthetic_ops (wheelID s') (currBytes s') (prevJoyBtnState s)
                 ++ [sendReport]).
Proof.
  intros H Hw. apply loop_returns in H.
  destruct H as (sm & pre & -> & -> & Hpre & _ & _ & _ & _ & _ & Hpb & _ & Hpj & _).
  destruct (finish_spec sm) as [v Hv]. rewrite Hv in *. cbn [fst snd] in *.
  cbn [wheelIdentified wheelID bit2btn currBytes] in *. rewrite Hw.
  destruct (gamepad_trace_Forall wait_call releasing pre wait_call_releasing Hpre)
    as (before & Hb1 & Hb2).
  destruct (who_frame sm) as (Hc & _ & _ & _ & _ & _ & Hwpj & _).
  exists pre, (joy_calls (who sm) ++ [CsendReport]), before.
  rewrite <- Hpb.
  split; [reflexivity|]. split; [exact Hpre|]. split; [exact Hb1|].
  split; [exact Hb2|].
  rewrite !gamepad_trace_app, Hb1, diff_calls_ops, joy_calls_ops by exact Hw.
  rewrite Hc, Hwpj, Hpj. reflexivity.
Qed.

(** ** Hat bits *)

(** C7. In every call of [loop] that returns with a wheel identified, the
    scan of the frame just read against the stored one is part of what is
    sent to the gamepad, and in it: a changed bit whose entry is a hat tag
    (31 to 34) sends one [setHat1], with [HAT_CENTERED] if the bit is now
    clear, whatever was stored, and otherwise with 1, 3, 5, 7 for the tags
    31, 32, 33, 34, the arguments 0, 1, 2, 3 of [convertHat]; and the scan
    sends no other [setHat1].  [HAT_CENTERED] is none of 1, 3, 5, 7. *)
Theorem C7_hat_bit_changed
        (reads : list frame) (s s' : state) (tr : list call) (rest : list frame) :
  loop true reads s = Completed s' tr rest ->
  wheelIdentified s' = true ->
  (exists before,
      Forall releasing before
      /\ gamepad_trace tr
         = Some (before
                   ++ diff_ops (bit2btn s') (currBytes s') (prevBytes s)
                   ++ synthetic_ops (wheelID s') (currBytes s') (prevJoyBtnState s)
                   ++ [sendReport]))
  /\ (forall i b : nat,
         (i < 4)%nat -> (b < 8)%nat ->
         31 <= entry s' i b <= 34 ->
         masked (currBytes s') i b <> masked (prevBytes s) i b ->
         transition_ops (bit2btn s') (currBytes s') (prevBytes s) i b
         = [setHat1 (if masked (currBytes s') i b =? 0
                     then HAT_CENTERED
                     else 2 * (entry s' i b - 31) + 1)]
         /\ In (setHat1 (if masked (currBytes s') i b =? 0
                         then HAT_CENTERED
                         else 2 * (entry s' i b - 31) + 1))
               (diff_ops (bit2btn s') (currBytes s') (prevBytes s)))
  /\ (forall h : Z,
         In (setHat1 h) (diff_ops (bit2btn s') (currBytes s') (prevBytes s)) ->
         exists i b : nat,
           (i < 4)%nat /\ (b < 8)%nat
           /\ 31 <= entry s' i b <= 34
           /\ masked (currBytes s') i b <> masked (prevBytes s) i b
           /\ h = if masked (currBytes s') i b =? 0
                  then HAT_CENTERED
                  else 2 * (entry s' i b - 31) + 1)
  /\ convertHat 0 = Some [setHat1 1]
  /\ convertHat 1 = Some [setHat1 3]
  /\ convertHat 2 = Some [setHat1 5]
  /\ convertHat 3 = Some [setHat1 7]
  /\ ~ In HAT_CENTERED [1; 3; 5; 7].
Proof.
  intros H Hw.
  destruct (scan_in_trace reads s s' tr rest H Hw)
    as (pre & post & before & _ & _ & _ & Hrel & Hops).
  split; [exists before; split; assumption|].
  assert (Hhat : forall i b : nat,
             (b < 8)%nat -> 31 <= entry s' i b <= 34 ->
             masked (currBytes s') i b <> masked (prevBytes s) i b ->
             transition_ops (bit2btn s') (currBytes s') (prevBytes s) i b
             = [setHat1 (if masked (currBytes s') i b =? 0
                         then HAT_CENTERED
                         else 2 * (entry s' i b - 31) + 1)]).
  { intros i b Hb He Hch. rewrite (transition_ops_changed _ _ _ _ _ Hb Hch).
    unfold inactive_op, active_op, is_hat_tag. fold (entry s' i b).
    replace ((31 <=? entry s' i b) && (entry s' i b <=? 34)) with true
      by (symmetry; apply andb_true_intro; split; apply Z.leb_le; lia).
    destruct (masked (currBytes s') i b =? 0); reflexivity. }
  split; [|split].
  - intros i b Hi Hb He Hch. split; [now apply Hhat|].
    apply (in_diff_ops _ _ _ i b); [exact Hi|exact Hb|].
    rewrite (Hhat i b Hb He Hch). now left.
  - intros h Hin. apply diff_ops_in in Hin. destruct Hin as (i & b & Hi & Hb & Hin).
    apply (transition_ops_in _ _ _ _ _ _ Hb) in Hin. destruct Hin as [Hch Ho].
    exists i, b. split; [exact Hi|]. split; [exact Hb|].
    fold (entry s' i b) in Ho. unfold inactive_op, active_op, is_hat_tag in Ho.
    destruct ((31 <=? entry s' i b) && (entry s' i b <=? 34)) eqn:E.
    + apply andb_prop in E. destruct E as [E1 E2]. apply Z.leb_le in E1, E2.
      split; [lia|]. split; [exact Hch|].
      destruct (masked (currBytes s') i b =? 0); congruence.
    + destruct (masked (currBytes s') i b =? 0); discriminate.
  - repeat split; try reflexivity.
    cbn. unfold HAT_CENTERED. intros [E|[E|[E|[E|[]]]]]; discriminate.
Qed.

Lemma C7_hat_bit_changed_witness :
  In (setHat1 3)
     (diff_ops F599Btn (Frame 0xA0 0 0x40 0 0) (Frame 0xA0 0 0 0 0))
  /\ In (setHat1 HAT_CENTERED)
        (diff_ops F599Btn (Frame 0xA0 0 0 0 0) (Frame 0xA0 0 0x40 0 0)).
Proof.
  split.
  - destruct (C7_hat_bit_changed
                [raw_of 0xA0 0 0x40 0 0] s_599
                (state_of (loop true [raw_of 0xA0 0 0x40 0 0] s_599))
                (calls_of (loop true [raw_of 0xA0 0 0x40 0 0] s_599)) [])
      as (_ & Hbit & _).
    + vm_compute. reflexivity.
    + vm_compute. reflexivity.
    + destruct (Hbit 2%nat 1%nat) as [_ Hin].
      * lia.
      * lia.
      * vm_compute. split; discriminate.
      * vm_compute. discriminate.
      * exact Hin.
  - destruct (C7_hat_bit_changed
                [raw_of 0xA0 0 0 0 0]
                (state_of (loop true [raw_of 0xA0 0 0x40 0 0] s_599))
                (state_of (loop true [raw_of 0xA0 0 0 0 0]
                                (state_of (loop true [raw_of 0xA0 0 0x40 0 0] s_599))))
                (calls_of (loop true [raw_of 0xA0 0 0 0 0]
                                (state_of (loop true [raw_of 0xA0 0 0x40 0 0] s_599))))
                [])
      as (_ & Hbit & _).
    + vm_compute. reflexivity.
    + vm_compute. reflexivity.
    + destruct (Hbit 2%nat 1%nat) as [_ Hin].
      * lia.
      * lia.
      * vm_compute. split; discriminate.
      * vm_compute. discriminate.
      * exact Hin.
Defined.

(** ** Unmapped bits *)

Lemma bit_calls_unmapped (tbl : list Z) (cur prev : frame) (i b : nat) :
  nth (i * 8 + b) tbl 0 = -1 ->
  masked cur i b <> masked prev i b ->
  bit_calls tbl cur prev i b = [CsetButton (-1) (negb (masked cur i b =? 0))].
Proof.
  unfold masked, bit_calls. intros He Hch.
  apply Z.eqb_neq in Hch. rewrite Hch, He. reflexivity.
Qed.

(** C1, amended.  In every call of [loop] that returns with a wheel
    identified, a changed bit of the first four bytes whose entry is -1 is
    not dropped: the call makes the call [setButton(-1, state)] for it, and
    what that bit sends to the gamepad is one operation, [release(-1)] when
    the bit is now clear and [press(-1)] when it is now set, and no hat
    operation.  With the working array in its initial contents or holding
    one of the three tables, every button operation of a call of [loop]
    names -1 or a button 0 to 20. *)
Theorem C1_unmapped_bit_forwarded :
  (forall (reads : list frame) (s s' : state) (tr : list call) (rest : list frame),
      loop true reads s = Completed s' tr rest ->
      wheelIdentified s' = true ->
      (exists before,
          Forall releasing before
          /\ gamepad_trace tr
             = Some (before
                       ++ diff_ops (bit2btn s') (currBytes s') (prevBytes s)
                       ++ synthetic_ops (wheelID s') (currBytes s')
                                        (prevJoyBtnState s)
                       ++ [sendReport]))
      /\ forall i b : nat,
          (i < 4)%nat -> (b < 8)%nat ->
          entry s' i b = -1 ->
          masked (currBytes s') i b <> masked (prevBytes s) i b ->
          In (CsetButton (-1) (negb (masked (currBytes s') i b =? 0))) tr
          /\ transition_ops (bit2btn s') (currBytes s') (prevBytes s) i b
             = [if masked (currBytes s') i b =? 0
                then release (-1) else press (-1)]
          /\ In (if masked (currBytes s') i b =? 0
                 then release (-1) else press (-1))
                (diff_ops (bit2btn s') (currBytes s') (prevBytes s)))
  /\ (forall (c : bool) (reads : list frame) (s : state),
         known_table (bit2btn s) ->
         exists ops,
           gamepad_trace (calls_of (loop c reads s)) = Some ops
           /\ Forall button_in_range ops).
Proof.
  split; [|exact cycle_buttons_in_range].
  intros reads s s' tr rest H Hw.
  destruct (scan_in_trace reads s s' tr rest H Hw)
    as (pre & post & before & Htr & _ & _ & Hrel & Hops).
  split; [exists before; split; assumption|].
  intros i b Hi Hb He Hch.
  assert (Ht : transition_ops (bit2btn s') (currBytes s') (prevBytes s) i b
               = [if masked (currBytes s') i b =? 0
                  then release (-1) else press (-1)]).
  { rewrite (transition_ops_changed _ _ _ _ _ Hb Hch).
    unfold entry in He. rewrite He.
    destruct (masked (currBytes s') i b =? 0); reflexivity. }
  split; [|split].
  - rewrite Htr. apply in_or_app. right. apply in_or_app. left.
    apply (in_diff_calls _ _ _ i b); [exact Hi|exact Hb|].
    rewrite (bit_calls_unmapped _ _ _ _ _ He Hch). now left.
  - exact Ht.
  - apply (in_diff_ops _ _ _ i b); [exact Hi|exact Hb|]. rewrite Ht. now left.
Qed.

Lemma C1_unmapped_bit_forwarded_witness :
  (In (CsetButton (-1) true) (calls_of (loop true [raw_of 0xA0 0 0 1 0] s_599))
   /\ In (press (-1)) (diff_ops F599Btn (Frame 0xA0 0 0 1 0) (Frame 0xA0 0 0 0 0)))
  /\ exists ops,
       gamepad_trace (calls_of (loop true [raw_of 0xA0 0 0 1 0] s_599)) = Some ops
       /\ Forall button_in_range ops.
Proof.
  destruct C1_unmapped_bit_forwarded as [Hbit Hcycle]. split.
  - destruct (Hbit [raw_of 0xA0 0 0 1 0] s_599
                   (state_of (loop true [raw_of 0xA0 0 0 1 0] s_599))
                   (calls_of (loop true [raw_of 0xA0 0 0 1 0] s_599)) [])
      as (_ & Hpos).
    + vm_compute. reflexivity.
    + vm_compute. reflexivity.
    + destruct (Hpos 3%nat 7%nat) as (Hc & _ & Ho).
      * lia.
      * lia.
      * vm_compute. reflexivity.
      * vm_compute. discriminate.
      * split; [exact Hc|exact Ho].
  - apply (Hcycle true [raw_of 0xA0 0 0 1 0] s_599).
    unfold known_table. right. left. reflexivity.
Defined.

(** ** The frame a wheel that comes back is compared with *)

(** A call that starts with no wheel identified and reads a recognized
    frame: if it identifies a wheel, its calls are those of the comparison
    of that frame with the stored one, and the report. *)
Lemma seeking_call_trace (s : state) (raw : frame) (rest : list frame) :
  wheelIdentified s = false ->
  recognized (read_frame raw) = true ->
  exists s' tr,
    loop true (raw :: rest) s = Completed s' tr rest
    /\ currBytes s' = read_frame raw
    /\ prevBytes s' = read_frame raw
    /\ (wheelIdentified s' = true ->
        tr = diff_calls (bit2btn s') (read_frame raw) (prevBytes s)
             ++ [CsendReport])
    /\ (wheelIdentified s' = false -> tr = [CsendReport]).
Proof.
  intros Hs Hraw. rewrite (loop_plugged raw rest s Hraw).
  destruct (finish_spec (latched (read_frame raw) s)) as [v Hv]. rewrite Hv.
  do 2 eexists. split; [reflexivity|].
  rewrite (who_seeking (latched (read_frame raw) s) Hs). unfold joy_calls.
  destruct ((wheelbyte _ =? 160) && (fifthbyte _ =? 0));
    cbn; rewrite ?Hs; repeat split; intros; try discriminate; reflexivity.
Qed.

(** C4, amended.  In the cycle in which a wheel is identified again after
    an absence the frame just read is the current frame, and it is compared
    with [prevBytes], the frame stored by the last call of [loop] that
    returned.  When the wheel is identified in the very call in which it was
    away, the [while] has not written [prevBytes]: the calls after the reset
    and the waits are those of the comparison with the frame stored before
    the wheel went away.  When the absence ended on a recognized frame that
    identified no wheel, that call stored this frame, and a later call that
    identifies a wheel compares with the frame stored by the call before it,
    read after the wheel came back, and not with the one stored before it
    went away. *)
Theorem C4_diff_against_stored_frame :
  (forall (s : state) (raw0 rawN : frame) (raws rest : list frame),
      recognized (read_frame raw0) = false ->
      Forall (fun r => recognized (read_frame r) = false) raws ->
      recognized (read_frame rawN) = true ->
      exists s' tr,
        loop true (raw0 :: raws ++ rawN :: rest) s = Completed s' tr rest
        /\ currBytes s' = read_frame rawN
        /\ prevBytes s' = read_frame rawN
        /\ (wheelIdentified s' = true ->
            tr = reset_calls ++ repeat (Cdelay 1000) (length raws)
                 ++ diff_calls (bit2btn s') (read_frame rawN) (prevBytes s)
                 ++ [CsendReport])
        /\ (wheelIdentified s' = false ->
            tr = reset_calls ++ repeat (Cdelay 1000) (length raws)
                 ++ [CsendReport]))
  /\ (forall (s : state) (raw : frame) (rest : list frame),
         wheelIdentified s = false ->
         recognized (read_frame raw) = true ->
         exists s' tr,
           loop true (raw :: rest) s = Completed s' tr rest
           /\ currBytes s' = read_frame raw
           /\ prevBytes s' = read_frame raw
           /\ (wheelIdentified s' = true ->
               tr = diff_calls (bit2btn s') (read_frame raw) (prevBytes s)
                    ++ [CsendReport])
           /\ (wheelIdentified s' = false -> tr = [CsendReport]))
  /\ (forall (s : state) (raw0 rawM raw : frame) (raws rest : list frame),
         recognized (read_frame raw0) = false ->
         Forall (fun r => recognized (read_frame r) = false) raws ->
         recognized (read_frame rawM) = true ->
         recognized (read_frame raw) = true ->
         exists s1 tr1 s2 tr2,
           loop true (raw0 :: raws ++ rawM :: []) s = Completed s1 tr1 []
           /\ loop true (raw :: rest) s1 = Completed s2 tr2 rest
           /\ (wheelIdentified s1 = false ->
               wheelIdentified s2 = true ->
               tr2 = diff_calls (bit2btn s2) (read_frame raw) (read_frame rawM)
                     ++ [CsendReport])).
Proof.
  split; [exact absence_call_trace|]. split; [exact seeking_call_trace|].
  intros s raw0 rawM raw raws rest H0 Hall HM Hraw.
  destruct (absence_call_trace s raw0 rawM raws [] H0 Hall HM)
    as (s1 & tr1 & H1 & _ & Hp1 & _).
  exists s1, tr1. destruct (wheelIdentified s1) eqn:Hw1.
  - rewrite (loop_plugged raw rest s1 Hraw).
    destruct (finish (latched (read_frame raw) s1)) as [s2 tr2].
    exists s2, tr2. split; [exact H1|]. split; [reflexivity|]. discriminate.
  - destruct (seeking_call_trace s1 raw rest Hw1 Hraw)
      as (s2 & tr2 & H2 & _ & _ & Hid & _).
    exists s2, tr2. split; [exact H1|]. split; [exact H2|].
    intros _ Hw2. rewrite <- Hp1. now apply Hid.
Qed.

Lemma C4_diff_against_stored_frame_witness :
  (exists s' tr,
      loop true [raw_of 0 0 0 0 0; raw_of 0xFF 0 0 0 0; raw_of 0xA8 0 0 0 0]
           s_599_paddle
      = Completed s' tr []
      /\ currBytes s' = Frame 0xA8 0 0 0 0
      /\ prevBytes s' = Frame 0xA8 0 0 0 0
      /\ (wheelIdentified s' = true ->
          tr = reset_calls ++ [Cdelay 1000]
               ++ diff_calls (bit2btn s') (Frame 0xA8 0 0 0 0) (Frame 0xB0 0 0 0 0)
               ++ [CsendReport])
      /\ (wheelIdentified s' = false ->
          tr = reset_calls ++ [Cdelay 1000] ++ [CsendReport]))
  /\ (exists s' tr,
         loop true [raw_of 0xA8 0 0 0 0]
              (set_wheelIdentified false s_599_paddle)
         = Completed s' tr []
         /\ currBytes s' = Frame 0xA8 0 0 0 0
         /\ prevBytes s' = Frame 0xA8 0 0 0 0
         /\ (wheelIdentified s' = true ->
             tr = diff_calls (bit2btn s') (Frame 0xA8 0 0 0 0) (Frame 0xB0 0 0 0 0)
                  ++ [CsendReport])
         /\ (wheelIdentified s' = false -> tr = [CsendReport]))
  /\ (exists s1 tr1 s2 tr2,
         loop true [raw_of 0 0 0 0 0; raw_of 0xC0 0 0 0 0] s_599_paddle
         = Completed s1 tr1 []
         /\ loop true [raw_of 0xA0 0 0 0 0] s1 = Completed s2 tr2 []
         /\ (wheelIdentified s1 = false ->
             wheelIdentified s2 = true ->
             tr2 = diff_calls (bit2btn s2) (Frame 0xA0 0 0 0 0) (Frame 0xC0 0 0 0 0)
                   ++ [CsendReport])).
Proof.
  destruct C4_diff_against_stored_frame as (HA & HB & HC). split; [|split].
  - apply (HA s_599_paddle (raw_of 0 0 0 0 0) (raw_of 0xA8 0 0 0 0)
              [raw_of 0xFF 0 0 0 0] []).
    + reflexivity.
    + repeat constructor.
    + reflexivity.
  - apply (HB (set_wheelIdentified false s_599_paddle) (raw_of 0xA8 0 0 0 0) []).
    + reflexivity.
    + reflexivity.
  - apply (HC s_599_paddle (raw_of 0 0 0 0 0) (raw_of 0xC0 0 0 0 0)
              (raw_of 0xA0 0 0 0 0) [] []).
    + reflexivity.
    + constructor.
    + reflexivity.
    + reflexivity.
Defined.

(** The second case, run: the absence ends on header 192, which identifies
    no wheel; the next call identifies the 599xx and compares with
    (0xC0,0,0,0,0), not with the frame stored before the wheel went away. *)
Example identified_in_a_later_call :
  calls_of (loop true [raw_of 0xA0 0 0 0 0]
              (state_of (loop true [raw_of 0 0 0 0 0; raw_of 0xC0 0 0 0 0]
                              s_599_paddle)))
  = [CsetButton (-1) false; CsetButton (-1) true; CsendReport].
Proof. vm_compute. reflexivity. Qed.
